(** * Supply/demand trend engine: a shallow embedding and its properties

    The development follows the Python sources of the repository:
    - [analysis.py]            (class [StockAnalyzer])            -> [Module Analysis]
    - [collect_stockdemand.py] (class [StockSupplyDemandCollector]) -> [Module Collector]
      and [Module SupplyTrend]
    - [data_collector.py]      (class [StockDataCollector])       -> [Module DataCollector]
      and [Module Store]
    [backup/demand_analysis.py] repeats the trend functions of
    [collect_stockdemand.py] and the converters of [data_collector.py]
    verbatim, so the same definitions stand for it.

    Python [int] is [Z]; Python [float] is IEEE-754 binary64, taken from
    the Standard Library's executable specification [SpecFloat]
    (precision 53, exponent bound 1024, round to nearest even); [str] is
    a [string] holding the UTF-8 encoding of the text; an exception is an
    explicit [Raise] outcome. *)

From Stdlib Require Import String Ascii ZArith List Bool Lia QArith Floats.
From Stdlib Require Import DecimalString DecimalPos.
From Stdlib Require Import Sorting.Sorted Sorting.Permutation.
Import ListNotations.

Local Open Scope Z_scope.

(** ** Outcomes of Python calls *)

Inductive exn : Type :=
| ValueError
| OverflowError
| ZeroDivisionError
| TypeError
| KeyError
| AttributeError
| UnicodeDecodeError
| DatabaseError.

Inductive result (A : Type) : Type :=
| Return (a : A)
| Raise (e : exn).

Arguments Return {A} a.
Arguments Raise {A} e.

Definition bind {A B : Type} (r : result A) (k : A -> result B) : result B :=
  match r with
  | Return a => k a
  | Raise e => Raise e
  end.

Notation "x <- r ;; k" := (bind r (fun x => k))
  (at level 61, r at next level, right associativity).

(** [try: ... except Exception: ...] with a handler that ignores the
    exception object. *)
Definition try_except {A : Type} (body : result A) (handler : result A) : result A :=
  match body with
  | Return a => Return a
  | Raise _ => handler
  end.

(** ** Binary64 arithmetic *)

Module F64.

Definition float64 : Type := spec_float.

Definition mul : float64 -> float64 -> float64 := SFmul prec emax.
Definition add : float64 -> float64 -> float64 := SFadd prec emax.
Definition leb : float64 -> float64 -> bool := SFleb.

(** The double nearest to the integer [z] (what [int * float],
    [int + float] and a comparison of an integer with a float do to
    their integer operand).  It is used on tallies, lengths and the
    constants of the score tables, far below the range where the
    interpreter raises [OverflowError]; [of_int] below is the checked
    conversion. *)
Definition of_Z (z : Z) : float64 := binary_normalize prec emax z 0 false.

(** The double nearest to the fraction [n / d], with sign [s]. *)
Definition of_ratio (s : bool) (n : Z) (d : positive) : float64 :=
  match n with
  | Zpos _ =>
      let '(q, e, l) := SFdiv_core_binary prec emax n 0 (Zpos d) 0 in
      binary_round_aux prec emax s q e l
  | _ => S754_zero s
  end.

(** A decimal literal [m * 10^e] of the source text, e.g. [0.4] is
    [decimal 4 (-1)]. *)
Definition decimal (m : Z) (e : Z) : float64 :=
  let s := m <? 0 in
  if 0 <=? e then of_ratio s (Z.abs m * 10 ^ e) 1
  else of_ratio s (Z.abs m) (Z.to_pos (10 ^ (- e))).

(** [a / b] on two Python integers: the correctly rounded quotient;
    [OverflowError] when it does not fit a double. *)
Definition int_truediv (a b : Z) : result float64 :=
  if b =? 0 then Raise ZeroDivisionError
  else
    match of_ratio (xorb (a <? 0) (b <? 0)) (Z.abs a) (Z.to_pos (Z.abs b)) with
    | S754_infinity _ => Raise OverflowError
    | q => Return q
    end.

(** Integer part of the magnitude [m * 2^e] of a finite double. *)
Definition magnitude_floor (m : positive) (e : Z) : Z :=
  if 0 <=? e then Zpos m * 2 ^ e else Zpos m / 2 ^ (- e).

(** [int(x)]: truncation toward zero; [int(nan)] raises [ValueError],
    [int(inf)] raises [OverflowError]. *)
Definition to_int (x : float64) : result Z :=
  match x with
  | S754_nan => Raise ValueError
  | S754_infinity _ => Raise OverflowError
  | S754_zero _ => Return 0
  | S754_finite s m e => Return (cond_Zopp s (magnitude_floor m e))
  end.

Definition nan : float64 := S754_nan.
Definition infinity : float64 := S754_infinity false.

Definition is_zero (x : float64) : bool :=
  match x with
  | S754_zero _ => true
  | _ => false
  end.

(** [float(z)]: [OverflowError] when the integer is too large. *)
Definition of_int (z : Z) : result float64 :=
  match of_Z z with
  | S754_infinity _ => Raise OverflowError
  | x => Return x
  end.

(** Nearest integer to [n / d], ties to even ([0 <= n], [0 < d]). *)
Definition round_half_even (n d : Z) : Z :=
  let q := n / d in
  let r := n mod d in
  match 2 * r ?= d with
  | Lt => q
  | Gt => q + 1
  | Eq => if Z.even q then q else q + 1
  end.

(** [round(x, 2)]: the exact value is rounded to two decimals, ties to
    even, and the decimal is read back as the nearest double. *)
Definition round2 (x : float64) : float64 :=
  match x with
  | S754_finite s m e =>
      let hundredths :=
        if 0 <=? e then Zpos m * 2 ^ e * 100
        else round_half_even (Zpos m * 100) (2 ^ (- e)) in
      of_ratio s hundredths 100
  | _ => x
  end.

End F64.

Abbreviation float64 := F64.float64.

(** The float literals of the sources. *)
Definition lit_0_7 : float64 := F64.decimal 7 (-1).
Definition lit_0_4 : float64 := F64.decimal 4 (-1).
Definition lit_0_2 : float64 := F64.decimal 2 (-1).

(** ** Python values

    The values a decoded JSON document or a database cell can hold.  A
    [bytes] object and a [str] both carry a [string]: raw bytes for the
    first, the UTF-8 encoding of the text for the second. *)

#[warnings="-register-all"] Inductive pyvalue : Type :=
| PyNone
| PyBool (b : bool)
| PyInt (z : Z)
| PyFloat (x : float64)
| PyBytes (b : string)
| PyStr (s : string)
| PyList (l : list pyvalue)
| PyDict (d : list (string * pyvalue)).

(** Truth value ([not v] is its negation). *)
Definition truthy (v : pyvalue) : bool :=
  match v with
  | PyNone => false
  | PyBool b => b
  | PyInt z => negb (z =? 0)
  | PyFloat x => negb (F64.is_zero x)
  | PyBytes b => negb (String.eqb b "")
  | PyStr s => negb (String.eqb s "")
  | PyList l => match l with [] => false | _ => true end
  | PyDict d => match d with [] => false | _ => true end
  end.

(** [v == text] for a string constant [text]. *)
Definition equals_text (v : pyvalue) (text : string) : bool :=
  match v with
  | PyStr s => String.eqb s text
  | _ => false
  end.

(** ** Text *)

Module Text.

Definition code (c : ascii) : N := N_of_ascii c.

(** ASCII characters for which [str.isspace] holds. *)
Definition is_space (c : ascii) : bool :=
  ((9 <=? code c) && (code c <=? 13) || (28 <=? code c) && (code c <=? 32))%N.

Definition is_digit (c : ascii) : bool :=
  ((48 <=? code c) && (code c <=? 57))%N.

Definition digit_value (c : ascii) : Z := Z.of_N (code c) - 48.

Fixpoint lstrip (s : list ascii) : list ascii :=
  match s with
  | c :: r => if is_space c then lstrip r else s
  | [] => []
  end.

Definition strip_ascii (s : string) : string :=
  string_of_list_ascii
    (rev (lstrip (rev (lstrip (list_ascii_of_string s))))).

(** [re.sub('[...]', '', s)]: every character of the class is removed. *)
Fixpoint remove_chars (class : list ascii) (s : string) : string :=
  match s with
  | EmptyString => EmptyString
  | String c r =>
      if existsb (Ascii.eqb c) class then remove_chars class r
      else String c (remove_chars class r)
  end.

(** [s.startswith('-')] and [s[1:]] on a string whose first character is
    that one-byte sign. *)
Definition starts_with_minus (s : string) : bool :=
  match s with
  | String c _ => Ascii.eqb c "-"
  | EmptyString => false
  end.

Definition drop_first (s : string) : string :=
  match s with
  | String _ r => r
  | EmptyString => EmptyString
  end.

(** The rest of a [digitpart]: digits, each optionally preceded by one
    underscore.  Returns the value, the number of digits and what is
    left. *)
Fixpoint more_digits (acc : Z) (n : nat) (s : list ascii) : Z * nat * list ascii :=
  match s with
  | c :: r =>
      if is_digit c then more_digits (10 * acc + digit_value c) (S n) r
      else if Ascii.eqb c "_" then
        match r with
        | d :: r' =>
            if is_digit d then more_digits (10 * acc + digit_value d) (S n) r'
            else (acc, n, s)
        | [] => (acc, n, s)
        end
      else (acc, n, s)
  | [] => (acc, n, s)
  end.

(** [digitpart ::= digit (["_"] digit)*] *)
Definition digitpart (s : list ascii) : option (Z * nat * list ascii) :=
  match s with
  | c :: r => if is_digit c then Some (more_digits (digit_value c) 1 r) else None
  | [] => None
  end.

(** An optional sign: [true] for a minus. *)
Definition sign (s : list ascii) : bool * list ascii :=
  match s with
  | c :: r =>
      if Ascii.eqb c "-" then (true, r)
      else if Ascii.eqb c "+" then (false, r)
      else (false, s)
  | [] => (false, s)
  end.

(** [sys.get_int_max_str_digits()], as the interpreter starts: [int(s)]
    and [str(n)] refuse more decimal digits than this. *)
Definition max_str_digits : nat := 4300.

(** [int(s)] on ASCII text: surrounding blanks, an optional sign, a
    digitpart of at most [max_str_digits] digits.  [None] is
    [ValueError]. *)
Definition parse_int (s : string) : option Z :=
  let '(neg, body) := sign (list_ascii_of_string (strip_ascii s)) in
  match digitpart body with
  | Some (v, digits, []) =>
      if (digits <=? max_str_digits)%nat then Some (if neg then - v else v) else None
  | _ => None
  end.

Definition lower (c : ascii) : ascii :=
  if ((65 <=? code c) && (code c <=? 90))%N then ascii_of_N (code c + 32) else c.

Definition is_exponent_mark (c : ascii) : bool := Ascii.eqb (lower c) "e".

(** The exponent of a float literal, if one starts here; [None] when the
    text is malformed. *)
Definition exponent (s : list ascii) : option (Z * list ascii) :=
  match s with
  | c :: r =>
      if is_exponent_mark c then
        let '(neg, digits) := sign r in
        match digitpart digits with
        | Some (v, _, rest) => Some (if neg then - v else v, rest)
        | None => None
        end
      else Some (0, s)
  | [] => Some (0, s)
  end.

(** Integer part and fraction of a float literal: the digits read as one
    integer, and the number of fraction digits. *)
Definition mantissa (s : list ascii) : option (Z * nat * list ascii) :=
  let '(int_value, int_digits, after_int) :=
    match digitpart s with
    | Some r => r
    | None => (0, 0%nat, s)
    end in
  match after_int with
  | c :: r =>
      if Ascii.eqb c "." then
        match digitpart r with
        | Some (frac_value, frac_digits, rest) =>
            Some (int_value * 10 ^ Z.of_nat frac_digits + frac_value, frac_digits, rest)
        | None =>
            if Nat.eqb int_digits 0 then None else Some (int_value, 0%nat, r)
        end
      else if Nat.eqb int_digits 0 then None else Some (int_value, 0%nat, after_int)
  | [] => if Nat.eqb int_digits 0 then None else Some (int_value, 0%nat, after_int)
  end.

(** [float(s)] on ASCII text: blanks, sign, then [inf], [infinity],
    [nan] in any case, or a decimal literal read to the nearest double
    (overflow gives an infinity).  [None] is [ValueError]. *)
Definition parse_float (s : string) : option float64 :=
  let '(neg, body) := sign (list_ascii_of_string (strip_ascii s)) in
  let word := string_of_list_ascii (map lower body) in
  if String.eqb word "inf" || String.eqb word "infinity" then Some (S754_infinity neg)
  else if String.eqb word "nan" then Some S754_nan
  else
    match mantissa body with
    | Some (m, frac_digits, after_mantissa) =>
        match exponent after_mantissa with
        | Some (e, []) =>
            let e10 := e - Z.of_nat frac_digits in
            Some (if 0 <=? e10 then F64.of_ratio neg (m * 10 ^ e10) 1
                  else F64.of_ratio neg m (Z.to_pos (10 ^ (- e10))))
        | _ => None
        end
    | None => None
    end.

(** *** UTF-8 *)

Definition in_range (lo hi : N) (c : ascii) : bool :=
  ((lo <=? code c) && (code c <=? hi))%N.

Definition continuation : ascii -> bool := in_range 128 191.

(** Well-formed UTF-8 as the strict decoder accepts it: shortest forms
    only, no surrogates, nothing above U+10FFFF. *)
Fixpoint utf8_valid (s : list ascii) : bool :=
  match s with
  | [] => true
  | b0 :: r0 =>
      if in_range 0 127 b0 then utf8_valid r0
      else
        match r0 with
        | b1 :: r1 =>
            if in_range 194 223 b0 then continuation b1 && utf8_valid r1
            else
              match r1 with
              | b2 :: r2 =>
                  if in_range 224 239 b0 then
                    (if in_range 224 224 b0 then in_range 160 191 b1
                     else if in_range 237 237 b0 then in_range 128 159 b1
                     else continuation b1)
                    && continuation b2 && utf8_valid r2
                  else
                    match r2 with
                    | b3 :: r3 =>
                        in_range 240 244 b0
                        && (if in_range 240 240 b0 then in_range 144 191 b1
                            else if in_range 244 244 b0 then in_range 128 143 b1
                            else continuation b1)
                        && continuation b2 && continuation b3 && utf8_valid r3
                    | [] => false
                    end
              | [] => false
              end
        | [] => false
        end
  end.

(** [b.decode('utf-8')]: [None] is [UnicodeDecodeError]. *)
Definition decode_utf8 (b : string) : option string :=
  if utf8_valid (list_ascii_of_string b) then Some b else None.

(** The characters of a text, each with the bytes that encode it. *)
Fixpoint chars (s : list ascii) : list (list ascii) :=
  match s with
  | [] => []
  | b :: r =>
      match chars r with
      | (c :: _) as next :: others =>
          if continuation c then (b :: next) :: others else [b] :: next :: others
      | rest => [b] :: rest
      end
  end.

(** [s[i:j]] for constants [0 <= i <= j], counted in characters. *)
Definition slice (s : string) (i j : nat) : string :=
  string_of_list_ascii
    (concat (firstn (j - i) (skipn i (chars (list_ascii_of_string s))))).

End Text.

(** ** Builtins taken from the interpreter

    [int(s)], [float(s)] and [s.strip()] consult the interpreter's
    Unicode tables, and [str(v)] of a value that is not a string is its
    [repr], which raises [ValueError] on an integer of more digits than
    the interpreter converts.  The functions below take them as a
    record, so that what is proved for every record holds for the
    interpreter's own. *)

Record builtins : Type := {
  int_of_str : string -> option Z;          (* None: ValueError *)
  float_of_str : string -> option float64;  (* None: ValueError *)
  str_strip : string -> string;
  repr : pyvalue -> option string           (* None: ValueError *)
}.

(** Decimal text of an integer. *)
Definition decimal_of_Z (z : Z) : string :=
  match z with
  | Z0 => "0"
  | Zpos p => NilEmpty.string_of_uint (Pos.to_uint p)
  | Zneg p => String "-" (NilEmpty.string_of_uint (Pos.to_uint p))
  end.

(** The number of decimal digits of an integer. *)
Definition decimal_digits (z : Z) : nat :=
  match z with
  | Z0 => 1
  | Zpos p | Zneg p => String.length (NilEmpty.string_of_uint (Pos.to_uint p))
  end.

(** [f"{num:,}"]: the decimal digits in groups of three from the right,
    after the sign.  [group_rev] walks the digits from the last one,
    [count] being the size of the group under way. *)
Fixpoint group_rev (count : nat) (digits : list ascii) : list ascii :=
  match digits with
  | [] => []
  | c :: rest =>
      if Nat.eqb count 3 then ","%char :: c :: group_rev 1 rest
      else c :: group_rev (S count) rest
  end.

Definition group_digits (digits : string) : string :=
  string_of_list_ascii (rev (group_rev 0 (rev (list_ascii_of_string digits)))).

Definition format_thousands (num : Z) : string :=
  match num with
  | Z0 => "0"
  | Zpos p => group_digits (NilEmpty.string_of_uint (Pos.to_uint p))
  | Zneg p => String "-" (group_digits (NilEmpty.string_of_uint (Pos.to_uint p)))
  end.

(** [f"{num:,}"] as the interpreter evaluates it: the conversion to
    decimal raises [ValueError] beyond [max_str_digits] digits. *)
Definition format_grouped (num : Z) : result string :=
  if (decimal_digits num <=? Text.max_str_digits)%nat then Return (format_thousands num)
  else Raise ValueError.

(** [except (ValueError, TypeError):] ([UnicodeDecodeError] is a
    [ValueError]). *)
Definition except_value_or_type_error {A : Type} (body : result A) (handler : result A)
  : result A :=
  match body with
  | Raise (ValueError | TypeError | UnicodeDecodeError) => handler
  | other => other
  end.

(** The builtins on ASCII text.  [repr] is given for [None], booleans
    and integers; the rendering of the other values is left empty and is
    not consulted by any evaluation below. *)
Definition ascii_builtins : builtins := {|
  int_of_str := Text.parse_int;
  float_of_str := Text.parse_float;
  str_strip := Text.strip_ascii;
  repr := fun v =>
    match v with
    | PyNone => Some "None"
    | PyBool true => Some "True"
    | PyBool false => Some "False"
    | PyInt z =>
        if (decimal_digits z <=? Text.max_str_digits)%nat then Some (decimal_of_Z z)
        else None
    | _ => Some ""
    end%string
|}.

Definition or_raise {A : Type} (e : exn) (o : option A) : result A :=
  match o with
  | Some a => Return a
  | None => Raise e
  end.

(** [str(v)] *)
Definition py_str (B : builtins) (v : pyvalue) : result string :=
  match v with
  | PyStr s => Return s
  | _ => or_raise ValueError (repr B v)
  end.

(** ** Operations on values used by the record parsers *)

(** [except ValueError:] *)
Definition except_value_error {A : Type} (body : result A) (handler : result A) : result A :=
  match body with
  | Raise ValueError => handler
  | other => other
  end.

(** A dict is an association list with distinct keys. *)
Fixpoint dict_lookup (d : list (string * pyvalue)) (key : string) : option pyvalue :=
  match d with
  | [] => None
  | (k, v) :: rest => if String.eqb k key then Some v else dict_lookup rest key
  end.

(** [item[key]] for a string key: only a dict takes one. *)
Definition getitem (item : pyvalue) (key : string) : result pyvalue :=
  match item with
  | PyDict d => or_raise KeyError (dict_lookup d key)
  | _ => Raise TypeError
  end.

(** [item.get(key, default)]: only a dict has the method. *)
Definition get_method (item : pyvalue) (key : string) (default : pyvalue) : result pyvalue :=
  match item with
  | PyDict d =>
      Return match dict_lookup d key with
             | Some v => v
             | None => default
             end
  | _ => Raise AttributeError
  end.

(** [v[i:j]] for constants [0 <= i <= j]: text, bytes and lists can be
    sliced and a short operand gives a short (or empty) slice; the
    other values raise ([TypeError]; a dict raises [TypeError] or, from
    Python 3.12 on, [KeyError]). *)
Definition slice_value (v : pyvalue) (i j : nat) : result pyvalue :=
  match v with
  | PyStr s => Return (PyStr (Text.slice s i j))
  | PyBytes b =>
      Return (PyBytes (string_of_list_ascii
                         (firstn (j - i) (skipn i (list_ascii_of_string b)))))
  | PyList l => Return (PyList (firstn (j - i) (skipn i l)))
  | _ => Raise TypeError
  end.

(** [for item in v] *)
Definition iterate (v : pyvalue) : result (list pyvalue) :=
  match v with
  | PyList l => Return l
  | PyDict d => Return (map (fun kv => PyStr (fst kv)) d)
  | PyStr s =>
      Return (map (fun c => PyStr (string_of_list_ascii c))
                  (Text.chars (list_ascii_of_string s)))
  | PyBytes b =>
      Return (map (fun c => PyInt (Z.of_N (N_of_ascii c))) (list_ascii_of_string b))
  | _ => Raise TypeError
  end.

(** The dict appended to [parsed_data]; [stock_name] is absent from the
    dict of [parse_supply_data]. *)
Record flow_record : Type := {
  stock_code : string;
  stock_name : option string;
  date : string;
  close_price : Z;
  price_change : Z;
  change_direction : pyvalue;
  change_rate : pyvalue;
  foreigner_pure_buy : Z;
  foreigner_hold_ratio : float64;
  organ_pure_buy : Z;
  individual_pure_buy : Z;
  accumulated_volume : Z;
  net_institutional_buy : Z;
  supply_demand_balance : Z
}.

(** [f"{date_str[:4]}-{date_str[4:6]}-{date_str[6:8]}"] *)
Definition format_date (B : builtins) (date_str : pyvalue) : result string :=
  year <- slice_value date_str 0 4 ;;
  month <- slice_value date_str 4 6 ;;
  day <- slice_value date_str 6 8 ;;
  year <- py_str B year ;;
  month <- py_str B month ;;
  day <- py_str B day ;;
  Return (year ++ "-" ++ month ++ "-" ++ day)%string.

(** [(price_change / prev_close * 100) if prev_close != 0 else 0] *)
Definition percent_change (price_change prev_close : Z) : result pyvalue :=
  if negb (prev_close =? 0) then
    q <- F64.int_truediv price_change prev_close ;;
    Return (PyFloat (F64.mul q (F64.of_Z 100)))
  else Return (PyInt 0).

(** [round(change_rate, 2)]: an [int] is returned unchanged. *)
Definition round_rate (change_rate : pyvalue) : pyvalue :=
  match change_rate with
  | PyFloat x => PyFloat (F64.round2 x)
  | other => other
  end.

(** The body of the [try] block of both record parsers, between the
    date and the dict literal; [to_int] and [to_ratio] are the two
    converters of the class. *)
Definition parse_fields (B : builtins)
    (to_int : pyvalue -> result Z) (to_ratio : pyvalue -> result float64)
    (finish_rate : pyvalue -> pyvalue)
    (code : string) (name : option string) (item : pyvalue) : result flow_record :=
  date_str <- getitem item "bizdate" ;;
  formatted_date <- format_date B date_str ;;
  v <- get_method item "closePrice" (PyInt 0) ;;
  close_price <- to_int v ;;
  v <- get_method item "compareToPreviousClosePrice" (PyInt 0) ;;
  price_change <- to_int v ;;
  direction <- get_method item "compareToPreviousPrice" (PyDict []) ;;
  change_direction <- get_method direction "text" (PyStr "") ;;
  let prev_close := close_price - price_change in
  change_rate <- percent_change price_change prev_close ;;
  v <- get_method item "foreignerPureBuyQuant" (PyInt 0) ;;
  foreigner_pure_buy <- to_int v ;;
  v <- get_method item "foreignerHoldRatio" (PyInt 0) ;;
  foreigner_hold_ratio <- to_ratio v ;;
  v <- get_method item "organPureBuyQuant" (PyInt 0) ;;
  organ_pure_buy <- to_int v ;;
  v <- get_method item "individualPureBuyQuant" (PyInt 0) ;;
  individual_pure_buy <- to_int v ;;
  v <- get_method item "accumulatedTradingVolume" (PyInt 0) ;;
  accumulated_volume <- to_int v ;;
  let net_institutional_buy := foreigner_pure_buy + organ_pure_buy in
  let supply_demand_balance := net_institutional_buy + individual_pure_buy in
  Return {|
    stock_code := code;
    stock_name := name;
    date := formatted_date;
    close_price := close_price;
    price_change := price_change;
    change_direction := change_direction;
    change_rate := finish_rate change_rate;
    foreigner_pure_buy := foreigner_pure_buy;
    foreigner_hold_ratio := foreigner_hold_ratio;
    organ_pure_buy := organ_pure_buy;
    individual_pure_buy := individual_pure_buy;
    accumulated_volume := accumulated_volume;
    net_institutional_buy := net_institutional_buy;
    supply_demand_balance := supply_demand_balance
  |}.

(** ** data_collector.py *)

Module DataCollector.

Definition safe_int_convert (B : builtins) (value : pyvalue) : result Z :=
  match value with
  | PyNone => Return 0
  | PyBool b => Return (Z.b2z b)
  | PyInt z => Return z
  | PyFloat x => F64.to_int x
  | PyBytes b =>
      try_except
        (s <- or_raise UnicodeDecodeError (Text.decode_utf8 b) ;;
         or_raise ValueError (int_of_str B s))
        (Return 0)
  | PyStr s =>
      let cleaned := Text.remove_chars ["+"; ","]%char s in
      try_except (or_raise ValueError (int_of_str B cleaned)) (Return 0)
  | _ => Return 0
  end.

Definition safe_float_convert (B : builtins) (value : pyvalue) : result float64 :=
  match value with
  | PyNone => Return (S754_zero false)
  | PyBool b => Return (F64.of_Z (Z.b2z b))
  | PyInt z => F64.of_int z
  | PyFloat x => Return x
  | PyBytes b =>
      try_except
        (s <- or_raise UnicodeDecodeError (Text.decode_utf8 b) ;;
         or_raise ValueError (float_of_str B s))
        (Return (S754_zero false))
  | PyStr s =>
      let cleaned := Text.remove_chars ["%"]%char s in
      try_except (or_raise ValueError (float_of_str B cleaned)) (Return (S754_zero false))
  | _ => Return (S754_zero false)
  end.

Definition parse_item (B : builtins) (code name : string) (item : pyvalue)
  : result flow_record :=
  parse_fields B (safe_int_convert B) (safe_float_convert B) round_rate
               code (Some name) item.

(** The [for item in raw_data] loop.  The handler formats
    [item.get('bizdate', 'unknown')] into its message before
    [continue]: an item without a [get] method raises there, outside
    the [try].  The text of the message is not modelled: a decoded
    payload holds no integer beyond the digit limit of [str], the one
    value whose formatting raises. *)
Fixpoint parse_loop (B : builtins) (code name : string)
    (items : list pyvalue) (parsed_data : list flow_record)
  : result (list flow_record) :=
  match items with
  | [] => Return parsed_data
  | item :: rest =>
      match parse_item B code name item with
      | Return parsed_item => parse_loop B code name rest (parsed_data ++ [parsed_item])
      | Raise _ =>
          _ <- get_method item "bizdate" (PyStr "unknown") ;;
          parse_loop B code name rest parsed_data
      end
  end.

Definition parse_stock_data (B : builtins) (code name : string) (raw_data : pyvalue)
  : result (list flow_record) :=
  if negb (truthy raw_data) then Return []
  else
    items <- iterate raw_data ;;
    parse_loop B code name items [].

End DataCollector.

(** ** Labels *)

(** The five trend labels returned by [assess_trend]. *)
Inductive trend : Type :=
| strong_buy
| buy
| neutral
| sell
| strong_sell.

(** The five labels returned by [get_recommendation]
    (['strong_buy'], ['buy'], ['hold'], ['sell'], ['strong_sell']). *)
Inductive recommendation : Type :=
| rec_strong_buy
| rec_buy
| rec_hold
| rec_sell
| rec_strong_sell.

(** ** Counting over a window ([(data > 0).sum()], [(data < 0).sum()]) *)

Definition count_positive (data : list Z) : nat :=
  length (filter (fun x => 0 <? x) data).

Definition count_negative (data : list Z) : nat :=
  length (filter (fun x => x <? 0) data).

(** [count >= total_count * 0.7]: the right-hand side is a float
    product, the comparison is made in binary64. *)
Definition ge_fraction (count total_count : nat) : bool :=
  F64.leb (F64.mul (F64.of_Z (Z.of_nat total_count)) lit_0_7)
          (F64.of_Z (Z.of_nat count)).

(** The if/elif chain shared by both [assess_trend] methods. *)
Definition trend_of_counts (positive_count negative_count total_count : nat) : trend :=
  if Nat.eqb positive_count total_count then strong_buy
  else if ge_fraction positive_count total_count then buy
  else if Nat.eqb negative_count total_count then strong_sell
  else if ge_fraction negative_count total_count then sell
  else neutral.

(** Score tables of [calculate_supply_score]. *)
Definition foreigner_map (t : trend) : Z :=
  match t with
  | strong_buy => 100 | buy => 75 | neutral => 50 | sell => 25 | strong_sell => 0
  end.

Definition organ_map (t : trend) : Z :=
  match t with
  | strong_buy => 100 | buy => 75 | neutral => 50 | sell => 25 | strong_sell => 0
  end.

Definition individual_map (t : trend) : Z :=
  match t with
  | strong_buy => 0 | buy => 25 | neutral => 50 | sell => 75 | strong_sell => 100
  end.

(** [get_recommendation], identical in [analysis.py] and
    [collect_stockdemand.py]. *)
Definition get_recommendation (score : Z) : recommendation :=
  if 80 <=? score then rec_strong_buy
  else if 60 <=? score then rec_buy
  else if 40 <=? score then rec_hold
  else if 20 <=? score then rec_sell
  else rec_strong_sell.

(** ** collect_stockdemand.py *)

Module Collector.

(** [1 if x > 0 else -1 if x < 0 else 0] *)
Definition sign_of (x : Z) : Z :=
  if 0 <? x then 1 else if x <? 0 then -1 else 0.

(** The [for i in range(1, len(data))] loop of
    [calculate_continuous_days]: [rest] is [data[i:]], the accumulator is
    [continuous_days]; the [else: break] branch returns the accumulator. *)
Fixpoint continuous_loop (current_sign : Z) (rest : list Z) (continuous_days : Z) : Z :=
  match rest with
  | [] => continuous_days
  | x :: rest' =>
      if sign_of x =? current_sign
      then continuous_loop current_sign rest' (continuous_days + 1)
      else continuous_days
  end.

Definition calculate_continuous_days (data : list Z) : Z :=
  match data with
  | [] => 0
  | x0 :: rest =>
      let current_sign := sign_of x0 in
      if current_sign =? 0 then 0
      else continuous_loop current_sign rest 1 * current_sign
  end.

Definition assess_trend (data : list Z) : trend :=
  if (length data <? 3)%nat then neutral
  else
    let recent_data := firstn 5 data in
    trend_of_counts (count_positive recent_data) (count_negative recent_data)
                    (length recent_data).

(** [score += (map[label] - 50) * weight / 100]: an integer product, a
    true division giving a float, then float additions; [int(score)]
    truncates and the result is clamped. *)
Definition calculate_supply_score (foreigner organ individual : trend) : result Z :=
  let score := F64.of_Z 50 in
  let foreigner_weight := 40 in
  term <- F64.int_truediv ((foreigner_map foreigner - 50) * foreigner_weight) 100 ;;
  let score := F64.add score term in
  let organ_weight := 40 in
  term <- F64.int_truediv ((organ_map organ - 50) * organ_weight) 100 ;;
  let score := F64.add score term in
  let individual_weight := 20 in
  term <- F64.int_truediv ((individual_map individual - 50) * individual_weight) 100 ;;
  let score := F64.add score term in
  i <- F64.to_int score ;;
  Return (Z.max 0 (Z.min 100 i)).

(** [parse_numeric_string], [parse_ratio_string] and
    [parse_supply_data] of [collect_stockdemand.py]. *)

Definition parse_numeric_string (B : builtins) (value_str : pyvalue) : result Z :=
  if negb (truthy value_str) || equals_text value_str "N/A" || equals_text value_str ""
  then Return 0
  else
    text <- py_str B value_str ;;
    let cleaned := str_strip B (Text.remove_chars ["+"; ","; "%"]%char text) in
    if String.eqb cleaned "" then Return 0
    else
      except_value_error
        (if Text.starts_with_minus cleaned then
           z <- or_raise ValueError
                  (int_of_str B (Text.remove_chars [","]%char (Text.drop_first cleaned))) ;;
           Return (- z)
         else or_raise ValueError (int_of_str B (Text.remove_chars [","]%char cleaned)))
        (Return 0).

Definition parse_ratio_string (B : builtins) (ratio_str : pyvalue) : result float64 :=
  if negb (truthy ratio_str) || equals_text ratio_str "N/A" || equals_text ratio_str ""
  then Return (S754_zero false)
  else
    text <- py_str B ratio_str ;;
    let cleaned := str_strip B (Text.remove_chars ["%"]%char text) in
    if String.eqb cleaned "" then Return (S754_zero false)
    else
      except_value_error (or_raise ValueError (float_of_str B cleaned))
                         (Return (S754_zero false)).

Definition parse_item (B : builtins) (code : string) (item : pyvalue)
  : result flow_record :=
  parse_fields B (parse_numeric_string B) (parse_ratio_string B) (fun rate => rate)
               code None item.

(** The handler prints the stock code and the exception only. *)
Fixpoint parse_loop (B : builtins) (code : string)
    (items : list pyvalue) (parsed_data : list flow_record)
  : result (list flow_record) :=
  match items with
  | [] => Return parsed_data
  | item :: rest =>
      match parse_item B code item with
      | Return parsed_item => parse_loop B code rest (parsed_data ++ [parsed_item])
      | Raise _ => parse_loop B code rest parsed_data
      end
  end.

Definition parse_supply_data (B : builtins) (code : string) (raw_data : pyvalue)
  : result (list flow_record) :=
  if negb (truthy raw_data) then Return []
  else
    items <- iterate raw_data ;;
    parse_loop B code items [].

End Collector.

(** ** analysis.py *)

Module Analysis.

Definition assess_trend (data : list Z) : trend :=
  if (length data <? 2)%nat then neutral
  else trend_of_counts (count_positive data) (count_negative data) (length data).

(** [score += (map[label] - 50) * 0.4] (resp. [0.2]). *)
Definition calculate_supply_score (foreigner organ individual : trend) : result Z :=
  let score := F64.of_Z 50 in
  let score := F64.add score (F64.mul (F64.of_Z (foreigner_map foreigner - 50)) lit_0_4) in
  let score := F64.add score (F64.mul (F64.of_Z (organ_map organ - 50)) lit_0_4) in
  let score := F64.add score (F64.mul (F64.of_Z (individual_map individual - 50)) lit_0_2) in
  i <- F64.to_int score ;;
  Return (Z.max 0 (Z.min 100 i)).

(** *** The stored table and the two queries

    A row of [stock_supply_demand], with the columns the analysis reads
    (the quantities are the integers written by the collector, each
    within the store's signed 64 bits).  The table is the list of its
    rows in the order of their row ids, which is the order a scan reads
    them in.  The store is a collaborator: a query is rendered by what
    SQLite returns for it. *)

Record supply_row : Type := {
  row_code : string;
  row_name : string;
  row_date : string;
  row_foreigner : Z;
  row_organ : Z;
  row_individual : Z
}.

(** [ORDER BY key DESC]: insertion keeps the earlier of two rows with
    equal keys first. *)
Fixpoint insert_desc {A : Type} (geb : A -> A -> bool) (x : A) (l : list A) : list A :=
  match l with
  | [] => [x]
  | y :: l' => if geb x y then x :: l else y :: insert_desc geb x l'
  end.

Definition order_by_desc {A : Type} (geb : A -> A -> bool) (l : list A) : list A :=
  fold_right (insert_desc geb) [] l.

(** The signed 64-bit range of the store's and of pandas' integers. *)
Definition fits_int64 (z : Z) : bool := (- 2 ^ 63 <=? z) && (z <? 2 ^ 63).

(** [Series.sum()] of an [int64] column: the sum wraps around. *)
Definition wrap_int64 (z : Z) : Z := (z + 2 ^ 63) mod 2 ^ 64 - 2 ^ 63.

Definition series_sum (column : supply_row -> Z) (rows : list supply_row) : Z :=
  wrap_int64 (fold_right Z.add 0 (map column rows)).

(** [SUM(column)] over the rows of a group, in the order they are read:
    when the running sum leaves the signed 64-bit range the statement
    fails with "integer overflow", which [pd.read_sql_query] raises as
    [DatabaseError]. *)
Fixpoint sql_sum_from (running : Z) (values : list Z) : result Z :=
  match values with
  | [] => Return running
  | v :: rest =>
      if fits_int64 (running + v) then sql_sum_from (running + v) rest
      else Raise DatabaseError
  end.

Definition sql_sum (values : list Z) : result Z := sql_sum_from 0 values.

(** [get_recent_data]: with a non-empty code,
    [SELECT * FROM stock_supply_demand WHERE stock_code = ?
     ORDER BY date DESC LIMIT days]; with an empty one ([if stock_code:]
    fails) the rows of all codes, [LIMIT days * 10].  A code has one row
    per date ([UNIQUE(stock_code, date)]); in the second query rows of
    equal date are taken in table order. *)
Definition get_recent_data (table : list supply_row) (stock_code : string) (days : nat)
  : list supply_row :=
  let by_date a b := String.leb (row_date b) (row_date a) in
  if negb (String.eqb stock_code "") then
    firstn days
      (order_by_desc by_date
         (filter (fun r => String.eqb (row_code r) stock_code) table))
  else firstn (days * 10) (order_by_desc by_date table).

(** The dict built by [calculate_supply_trend] (the two averages, which
    nothing reads afterwards, are left out). *)
Record analysis : Type := {
  a_stock_code : string;
  a_stock_name : string;
  window_days : nat;
  foreigner_total : Z;
  foreigner_trend : trend;
  organ_total : Z;
  organ_trend : trend;
  individual_total : Z;
  individual_trend : trend;
  supply_score : Z;
  a_recommendation : recommendation
}.

Definition calculate_supply_trend (table : list supply_row) (code : string) (window : nat)
  : result (option analysis) :=
  let data := get_recent_data table code (window * 2) in
  match data with
  | [] => Return None
  | _ :: _ =>
      let recent_data := firstn window data in
      let foreigner_data := map row_foreigner recent_data in
      let organ_data := map row_organ recent_data in
      let individual_data := map row_individual recent_data in
      let ft := assess_trend foreigner_data in
      let ot := assess_trend organ_data in
      let it := assess_trend individual_data in
      score <- calculate_supply_score ft ot it ;;
      Return (Some {|
        a_stock_code := code;
        a_stock_name := match recent_data with
                        | first :: _ => row_name first
                        | [] => ""
                        end;
        window_days := window;
        foreigner_total := series_sum row_foreigner recent_data;
        foreigner_trend := ft;
        organ_total := series_sum row_organ recent_data;
        organ_trend := ot;
        individual_total := series_sum row_individual recent_data;
        individual_trend := it;
        supply_score := score;
        a_recommendation := get_recommendation score
      |})
  end.

(** A row of the aggregate query of [find_institutional_favorites]. *)
Record candidate : Type := {
  c_code : string;
  c_name : string;
  total_foreigner_buy : Z;
  total_organ_buy : Z
}.

Definition key_eq_dec (a b : string * string) : {a = b} + {a <> b}.
Proof. decide equality; apply string_dec. Defined.

Definition group_key (r : supply_row) : string * string := (row_code r, row_name r).

Definition in_group (key : string * string) (r : supply_row) : bool :=
  if key_eq_dec (group_key r) key then true else false.

(** Text keys in the store's order (bytewise), code first. *)
Definition key_leb (a b : string * string) : bool :=
  match String.compare (fst a) (fst b) with
  | Lt => true
  | Eq => String.leb (snd a) (snd b)
  | Gt => false
  end.

(** The groups of [GROUP BY stock_code, stock_name], which come out in
    ascending key order; each aggregate is summed over the group's rows
    in scan order. *)
Fixpoint aggregate (rows : list supply_row) (keys : list (string * string))
  : result (list candidate) :=
  match keys with
  | [] => Return []
  | key :: rest =>
      let members := filter (in_group key) rows in
      f <- sql_sum (map row_foreigner members) ;;
      o <- sql_sum (map row_organ members) ;;
      others <- aggregate rows rest ;;
      Return ({| c_code := fst key;
                 c_name := snd key;
                 total_foreigner_buy := f;
                 total_organ_buy := o |} :: others)
  end.

(** The value of [(total_foreigner_buy + total_organ_buy)] in the
    [ORDER BY]: an integer sum, or, when that leaves the signed 64-bit
    range, the sum of the two as doubles (an integer at that size). *)
Definition order_key (c : candidate) : Z :=
  let total := total_foreigner_buy c + total_organ_buy c in
  if fits_int64 total then total
  else
    match F64.to_int (F64.add (F64.of_Z (total_foreigner_buy c))
                              (F64.of_Z (total_organ_buy c))) with
    | Return z => z
    | Raise _ => total
    end.

(** [SELECT stock_code, stock_name, SUM(foreigner_pure_buy), SUM(organ_pure_buy)
     FROM stock_supply_demand WHERE date >= cutoff
     GROUP BY stock_code, stock_name
     HAVING total_foreigner_buy > 0 AND total_organ_buy > 0
     ORDER BY (total_foreigner_buy + total_organ_buy) DESC]
    where [cutoff] is the store's [date('now', '-N days')]: [None] is
    the NULL it gives for a modifier it cannot read, and no date
    compares with NULL.  The sort keeps groups of equal total in the
    order they come in ([insert_desc] with [<=] sorts the keys
    ascending). *)
Definition favorites_query (table : list supply_row) (cutoff : option string)
  : result (list candidate) :=
  match cutoff with
  | None => Return []
  | Some cutoff =>
      let rows := filter (fun r => String.leb cutoff (row_date r)) table in
      let keys := order_by_desc key_leb (nodup key_eq_dec (map group_key rows)) in
      groups <- aggregate rows keys ;;
      let having :=
        filter (fun c => (0 <? total_foreigner_buy c) && (0 <? total_organ_buy c))
               groups in
      Return (order_by_desc (fun a b => order_key b <=? order_key a) having)
  end.

(** An element of [results]. *)
Record favorite : Type := {
  f_code : string;
  f_name : string;
  foreigner_total_buy : Z;
  organ_total_buy : Z;
  total_institutional_buy : Z;
  f_supply_score : Z;
  f_recommendation : recommendation
}.

(** The [for _, row in df.iterrows()] loop. *)
Fixpoint favorites_loop (table : list supply_row) (min_score : Z)
    (rows : list candidate) (results : list favorite) : result (list favorite) :=
  match rows with
  | [] => Return results
  | row :: rest =>
      found <- calculate_supply_trend table (c_code row) 5 ;;
      match found with
      | Some a =>
          if min_score <=? supply_score a then
            favorites_loop table min_score rest
              (results ++ [{|
                 f_code := c_code row;
                 f_name := c_name row;
                 foreigner_total_buy := total_foreigner_buy row;
                 organ_total_buy := total_organ_buy row;
                 total_institutional_buy := total_foreigner_buy row + total_organ_buy row;
                 f_supply_score := supply_score a;
                 f_recommendation := a_recommendation a |}])
          else favorites_loop table min_score rest results
      | None => favorites_loop table min_score rest results
      end
  end.

(** [date_ago days] stands for [date('now', '-' || days || ' days')],
    which the store evaluates when the query runs. *)
Definition find_institutional_favorites (date_ago : Z -> option string)
    (table : list supply_row) (days : Z) (min_score : Z) : result (list favorite) :=
  df <- favorites_query table (date_ago days) ;;
  favorites_loop table min_score df [].

(** [ReportGenerator.safe_format_number] (the same method is
    [SupplyAnalysisReporter.safe_format_number] of
    [backup/demand_analysis.py]). *)
Definition safe_format_number (B : builtins) (value : pyvalue) : result string :=
  match value with
  | PyNone => Return "0"%string
  | _ =>
      except_value_or_type_error
        (text <- match value with
                 | PyBytes b => or_raise UnicodeDecodeError (Text.decode_utf8 b)
                 | _ => py_str B value
                 end ;;
         x <- or_raise ValueError (float_of_str B text) ;;
         num <- F64.to_int x ;;
         format_grouped num)
        (Return "0"%string)
  end.

End Analysis.

(** ** data_collector.py: storing and collecting

    [save_stock_data] and [collect_all_stocks] of [StockDataCollector],
    over the table of [stock_supply_demand] rows that [analysis.py]
    reads.  A row keeps the columns read back (code, name, date and the
    three quantities). *)

Module Store.

(** What [sqlite3] binds as an integer. *)
Definition in_int64 (z : Z) : bool :=
  (- 2 ^ 63 <=? z) && (z <? 2 ^ 63).

(** What [sqlite3] binds at all: a list or a dict is refused, an
    integer beyond 64 bits raises [OverflowError]. *)
Definition bindable (v : pyvalue) : bool :=
  match v with
  | PyInt z => in_int64 z
  | PyList _ | PyDict _ => false
  | _ => true
  end.

(** The row that [cursor.execute] writes for one dict, or [None] when
    the statement raises: a dict without ['stock_name'] ([KeyError]) or
    a parameter that cannot be bound. *)
Definition to_row (data : flow_record) : option Analysis.supply_row :=
  match stock_name data with
  | Some name =>
      if in_int64 (close_price data) && in_int64 (price_change data)
         && bindable (change_direction data) && bindable (change_rate data)
         && in_int64 (foreigner_pure_buy data) && in_int64 (organ_pure_buy data)
         && in_int64 (individual_pure_buy data) && in_int64 (accumulated_volume data)
         && in_int64 (net_institutional_buy data)
         && in_int64 (supply_demand_balance data)
      then Some {| Analysis.row_code := stock_code data;
                   Analysis.row_name := name;
                   Analysis.row_date := date data;
                   Analysis.row_foreigner := foreigner_pure_buy data;
                   Analysis.row_organ := organ_pure_buy data;
                   Analysis.row_individual := individual_pure_buy data |}
      else None
  | None => None
  end.

(** The key of [UNIQUE(stock_code, date)]. *)
Definition row_key (r : Analysis.supply_row) : string * string :=
  (Analysis.row_code r, Analysis.row_date r).

Definition same_key (a b : Analysis.supply_row) : bool :=
  if Analysis.key_eq_dec (row_key a) (row_key b) then true else false.

(** [INSERT OR REPLACE]: the rows that hold the key are deleted and the
    new row is added. *)
Definition insert_or_replace (table : list Analysis.supply_row) (row : Analysis.supply_row)
  : list Analysis.supply_row :=
  filter (fun r => negb (same_key r row)) table ++ [row].

(** The [for data in stock_data_list] loop; a statement that raises is
    reported and skipped. *)
Fixpoint save_loop (table : list Analysis.supply_row) (stock_data_list : list flow_record)
    (saved_count : nat) : list Analysis.supply_row * nat :=
  match stock_data_list with
  | [] => (table, saved_count)
  | data :: rest =>
      match to_row data with
      | Some row => save_loop (insert_or_replace table row) rest (S saved_count)
      | None => save_loop table rest saved_count
      end
  end.

(** [save_stock_data]: the table after the call. *)
Definition save_stock_data (table : list Analysis.supply_row)
    (stock_data_list : list flow_record) : list Analysis.supply_row :=
  match stock_data_list with
  | [] => table
  | _ :: _ => fst (save_loop table stock_data_list 0)
  end.

(** An entry of the stock list, as [get_stock_codes] builds it; the
    loop reads its code and its name.  [save_stock_info], which runs
    first, writes the entries to the other table ([stocks]), which
    nothing below reads. *)
Record stock : Type := {
  code : string;
  name : string
}.

(** The loop of [collect_all_stocks]; [fetch] gives what
    [fetch_stock_data] returns for a code during the run ([None] when
    the request fails). *)
Fixpoint collect_loop (B : builtins) (fetch : string -> pyvalue)
    (stock_list : list stock) (all_data : list flow_record)
  : result (list flow_record) :=
  match stock_list with
  | [] => Return all_data
  | entry :: rest =>
      let raw_data := fetch (code entry) in
      if truthy raw_data then
        parsed_data <- DataCollector.parse_stock_data B (code entry) (name entry)
                         raw_data ;;
        collect_loop B fetch rest (all_data ++ parsed_data)
      else collect_loop B fetch rest all_data
  end.

(** [collect_all_stocks]: every payload is parsed first, the table is
    written once at the end; an exception in between leaves it as it
    was. *)
Definition collect_all_stocks (B : builtins) (fetch : string -> pyvalue)
    (table : list Analysis.supply_row) (stock_list : list stock)
  : result (list Analysis.supply_row) :=
  all_data <- collect_loop B fetch stock_list [] ;;
  Return (save_stock_data table all_data).

End Store.

(** ** collect_stockdemand.py: [analyze_supply_trend]

    The table of this class has no name column; the rows are those of
    [Analysis.supply_row], whose name is not read here. *)

Module SupplyTrend.

(** The dict built by [analyze_supply_trend]. *)
Record analysis : Type := {
  a_stock_code : string;
  foreigner_total_buy : Z;
  organ_total_buy : Z;
  individual_total_buy : Z;
  foreigner_continuous_days : Z;
  foreigner_buy_trend : trend;
  organ_continuous_days : Z;
  organ_buy_trend : trend;
  individual_continuous_days : Z;
  individual_buy_trend : trend;
  supply_score : Z;
  a_recommendation : recommendation
}.

(** [SELECT date, foreigner_pure_buy, organ_pure_buy, individual_pure_buy
     FROM stock_supply_demand WHERE stock_code = ?
     ORDER BY date DESC LIMIT ?] *)
Definition trend_query (table : list Analysis.supply_row) (stock_code : string)
    (days : nat) : list Analysis.supply_row :=
  firstn days
    (Analysis.order_by_desc
       (fun a b => String.leb (Analysis.row_date b) (Analysis.row_date a))
       (filter (fun r => String.eqb (Analysis.row_code r) stock_code) table)).

Definition analyze_supply_trend (table : list Analysis.supply_row) (stock_code : string)
    (days : nat) : result (option analysis) :=
  let df := trend_query table stock_code days in
  match df with
  | [] => Return None
  | _ :: _ =>
      let foreigner_data := map Analysis.row_foreigner df in
      let organ_data := map Analysis.row_organ df in
      let individual_data := map Analysis.row_individual df in
      let ft := Collector.assess_trend foreigner_data in
      let ot := Collector.assess_trend organ_data in
      let it := Collector.assess_trend individual_data in
      score <- Collector.calculate_supply_score ft ot it ;;
      Return (Some {|
        a_stock_code := stock_code;
        foreigner_total_buy := Analysis.series_sum Analysis.row_foreigner df;
        organ_total_buy := Analysis.series_sum Analysis.row_organ df;
        individual_total_buy := Analysis.series_sum Analysis.row_individual df;
        foreigner_continuous_days := Collector.calculate_continuous_days foreigner_data;
        foreigner_buy_trend := ft;
        organ_continuous_days := Collector.calculate_continuous_days organ_data;
        organ_buy_trend := ot;
        individual_continuous_days := Collector.calculate_continuous_days individual_data;
        individual_buy_trend := it;
        supply_score := score;
        a_recommendation := get_recommendation score
      |})
  end.

End SupplyTrend.

(** ** The specification's wording of the score and of the streak *)

Module ScoreSpec.

Definition table (t : trend) : Z :=
  match t with
  | strong_buy => 100 | buy => 75 | neutral => 50 | sell => 25 | strong_sell => 0
  end.

Definition inverted_table (t : trend) : Z :=
  match t with
  | strong_buy => 0 | buy => 25 | neutral => 50 | sell => 75 | strong_sell => 100
  end.

(** [50 + (F-50)*0.40 + (O-50)*0.40 + (I-50)*0.20] over the rationals. *)
Definition exact (f o i : trend) : Q :=
  (50 + inject_Z (table f - 50) * (40 # 100)
      + inject_Z (table o - 50) * (40 # 100)
      + inject_Z (inverted_table i - 50) * (20 # 100))%Q.

(** Truncation toward zero. *)
Definition truncate (q : Q) : Z := Z.quot (Qnum q) (Zpos (Qden q)).

Definition clamp (z : Z) : Z := Z.max 0 (Z.min 100 z).

Definition composite (f o i : trend) : Z := clamp (truncate (exact f o i)).

(** The other order: clamp the rational, then truncate. *)
Definition clamp_rational (q : Q) : Q :=
  if Qle_bool q 0 then 0%Q else if Qle_bool 100 q then 100%Q else q.

Definition composite_clamped_first (f o i : trend) : Z :=
  truncate (clamp_rational (exact f o i)).

End ScoreSpec.

Module StreakSpec.

(** Number of leading elements of [l] whose sign is [s]. *)
Fixpoint leading_run (s : Z) (l : list Z) : nat :=
  match l with
  | [] => 0
  | x :: l' => if Z.sgn x =? s then S (leading_run s l') else 0
  end.

Definition streak (l : list Z) : Z :=
  match l with
  | [] => 0
  | x :: _ => if x =? 0 then 0 else Z.of_nat (leading_run (Z.sgn x) l) * Z.sgn x
  end.

End StreakSpec.

(** ** Notions used to state the properties *)

(** A value on which [int(value)] cannot raise. *)
Definition finite_or_not_float (v : pyvalue) : Prop :=
  match v with
  | PyFloat (S754_nan | S754_infinity _) => False
  | _ => True
  end.

(** [YYYY-MM-DD] as the three slices give it. *)
Definition reformatted (s : string) : string :=
  (Text.slice s 0 4 ++ "-" ++ Text.slice s 4 6 ++ "-" ++ Text.slice s 6 8)%string.



(** What one record contributes to the output. *)
Definition emitted (parse : pyvalue -> result flow_record) (item : pyvalue)
  : list flow_record :=
  match parse item with
  | Return parsed_item => [parsed_item]
  | Raise _ => []
  end.

Definition is_mapping (item : pyvalue) : Prop :=
  match item with
  | PyDict _ => True
  | _ => False
  end.



(** The classifier in the specification's words (4.4): the first five
    values are inspected; fewer than three values give neutral; all
    inspected values positive give strong_buy, at least 70% of them buy;
    likewise on the negative side; the fraction is exact. *)
Module TrendSpec.

Definition count (p : Z -> bool) (values : list Z) : Z :=
  fold_left (fun n x => if p x then n + 1 else n) values 0.

Definition label (values : list Z) : trend :=
  let window := firstn 5 values in
  let total := Z.of_nat (length window) in
  let up := count (fun x => 0 <? x) window in
  let down := count (fun x => x <? 0) window in
  if (length values <? 3)%nat then neutral
  else if up =? total then strong_buy
  else if 7 * total <=? 10 * up then buy
  else if down =? total then strong_sell
  else if 7 * total <=? 10 * down then sell
  else neutral.

End TrendSpec.

(** The favorites ranker in the specification's words (4.6), with none
    of the program's functions. *)
Module FavoritesSpec.

Definition total (values : list Z) : Z := fold_left Z.add values 0.





(** How many rows of the code are dated after [r]. *)
Definition later_rows (table : list Analysis.supply_row) (code : string)
    (r : Analysis.supply_row) : nat :=
  length (filter (fun r' => String.eqb (Analysis.row_code r') code
                            && negb (String.leb (Analysis.row_date r')
                                                (Analysis.row_date r)))
                 table).

(** The [n] latest rows of a code, latest first: the row at position
    [k] is the one that exactly [k] rows of the code are dated after. *)
Definition latest_rows (table : list Analysis.supply_row) (code : string) (n : nat)
  : list Analysis.supply_row :=
  flat_map (fun k => filter (fun r => String.eqb (Analysis.row_code r) code
                                       && Nat.eqb (later_rows table code r) k)
                            table)
           (seq 0 n).

(** The composite score recomputed for a code from its own five latest
    rows; [None] when it has no row. *)
Definition score (table : list Analysis.supply_row) (code : string) : option Z :=
  match latest_rows table code 5 with
  | [] => None
  | rows =>
      Some (ScoreSpec.composite
              (TrendSpec.label (map Analysis.row_foreigner rows))
              (TrendSpec.label (map Analysis.row_organ rows))
              (TrendSpec.label (map Analysis.row_individual rows)))
  end.

Definition in_range (z : Z) : Prop := - 2 ^ 63 <= z < 2 ^ 63.




End FavoritesSpec.

(** The recommendation labels from worst to best. *)
Definition rec_rank (r : recommendation) : Z :=
  match r with
  | rec_strong_sell => 0
  | rec_sell => 1
  | rec_hold => 2
  | rec_buy => 3
  | rec_strong_buy => 4
  end.

(** The label of the opposite direction. *)
Definition opposite (t : trend) : trend :=
  match t with
  | strong_buy => strong_sell
  | buy => sell
  | neutral => neutral
  | sell => buy
  | strong_sell => strong_buy
  end.

(** What the parsers promise of an emitted record: the code (and name)
    it was called with, the two derived sums, and a zero change rate
    when the previous close is zero. *)
Definition well_formed_record (code : string) (name : option string) (r : flow_record)
  : Prop :=
  stock_code r = code /\
  stock_name r = name /\
  net_institutional_buy r = foreigner_pure_buy r + organ_pure_buy r /\
  supply_demand_balance r = net_institutional_buy r + individual_pure_buy r /\
  (close_price r = price_change r -> change_rate r = PyInt 0).

(** What reading the decimal text of [z] back gives when a refused
    conversion falls back to zero. *)
Definition within_limit (z : Z) : Z :=
  if (decimal_digits z <=? Text.max_str_digits)%nat then z else 0.

(** The characters of a decimal numeral. *)
Definition uint_chars (u : Decimal.uint) : list ascii :=
  list_ascii_of_string (NilEmpty.string_of_uint u).

(** The characters [re.sub] leaves when it removes a class. *)
Definition kept (class : list ascii) (c : ascii) : bool :=
  negb (existsb (Ascii.eqb c) class).

(** *** The stored table *)

(** The rows a batch writes, in order. *)
Definition rows_of (batch : list flow_record) : list Analysis.supply_row :=
  flat_map (fun data => match Store.to_row data with
                        | Some row => [row]
                        | None => []
                        end) batch.

Definition has_key (key : string * string) (r : Analysis.supply_row) : bool :=
  if Analysis.key_eq_dec (Store.row_key r) key then true else false.

(** The last row that a batch writes under a key. *)
Definition last_written (batch : list flow_record) (key : string * string)
  : option Analysis.supply_row :=
  find (has_key key) (rev (rows_of batch)).

(** [UNIQUE(stock_code, date)] holds of a table. *)
Definition keys_unique (table : list Analysis.supply_row) : Prop :=
  NoDup (map Store.row_key table).


(** The rows stored for a code. *)
Definition rows_on_file (table : list Analysis.supply_row) (stock_code : string)
  : list Analysis.supply_row :=
  filter (fun r => String.eqb (Analysis.row_code r) stock_code) table.

(** [a] is dated strictly after [b]. *)
Definition later (a b : Analysis.supply_row) : Prop :=
  String.leb (Analysis.row_date b) (Analysis.row_date a) = true /\
  Analysis.row_date a <> Analysis.row_date b.

(** A record and a row for the examples. *)
Definition example_record (name : option string) (day : string) (foreigner : Z)
  : flow_record := {|
  stock_code := "005930";
  stock_name := name;
  date := day;
  close_price := 71000;
  price_change := 500;
  change_direction := PyStr "RISING";
  change_rate := PyFloat (F64.decimal 71 (-2));
  foreigner_pure_buy := foreigner;
  foreigner_hold_ratio := F64.decimal 5312 (-2);
  organ_pure_buy := 20;
  individual_pure_buy := -30;
  accumulated_volume := 1000;
  net_institutional_buy := foreigner + 20;
  supply_demand_balance := foreigner + 20 - 30
|}.

Definition example_row (day : string) (foreigner : Z) : Analysis.supply_row := {|
  Analysis.row_code := "005930";
  Analysis.row_name := "S";
  Analysis.row_date := day;
  Analysis.row_foreigner := foreigner;
  Analysis.row_organ := 20;
  Analysis.row_individual := -30
|}.

(** A date as the endpoint sends it: eight digits. *)
Definition eight_digits (s : string) : Prop :=
  length (list_ascii_of_string s) = 8%nat /\
  Forall (fun c => Text.is_digit c = true) (list_ascii_of_string s).

(** *** The favorites ranker *)






(** A stored row, for the examples. *)
Definition stored_row (code name day : string) (foreigner organ individual : Z)
  : Analysis.supply_row := {|
  Analysis.row_code := code;
  Analysis.row_name := name;
  Analysis.row_date := day;
  Analysis.row_foreigner := foreigner;
  Analysis.row_organ := organ;
  Analysis.row_individual := individual
|}.

(** * Properties *)

(** ** Score aggregator *)

(** The literals are the doubles the interpreter reads. *)
Lemma literals_are_nearest_doubles :
  lit_0_7 = Prim2SF 0x1.6666666666666p-1%float /\
  lit_0_4 = Prim2SF 0x1.999999999999ap-2%float /\
  lit_0_2 = Prim2SF 0x1.999999999999ap-3%float.
Proof. vm_compute. repeat split. Qed.

(** The same products and sum on the processor's doubles. *)
Lemma binary64_matches_primitive_floats :
  F64.mul (F64.of_Z 5) lit_0_7 = Prim2SF (5 * 0x1.6666666666666p-1)%float /\
  F64.mul (F64.of_Z 3) lit_0_7 = Prim2SF (3 * 0x1.6666666666666p-1)%float /\
  F64.mul (F64.of_Z (-25)) lit_0_4 = Prim2SF (-25 * 0x1.999999999999ap-2)%float /\
  F64.add (F64.of_Z 50) (F64.mul (F64.of_Z 50) lit_0_2)
  = Prim2SF (50 + 50 * 0x1.999999999999ap-3)%float.
Proof. vm_compute. repeat split. Qed.

Lemma supply_score_values (f o i : trend) :
  Analysis.calculate_supply_score f o i = Return (ScoreSpec.composite f o i) /\
  Collector.calculate_supply_score f o i = Return (ScoreSpec.composite f o i) /\
  0 <= ScoreSpec.composite f o i <= 100 /\
  ScoreSpec.composite f o i = ScoreSpec.composite_clamped_first f o i.
Proof.
  destruct f, o, i; vm_compute; repeat split; intro H; discriminate H.
Qed.

(** C1. For all 125 label triples both [calculate_supply_score] methods
    return, without raising, the truncation of
    [50 + (F-50)*0.40 + (O-50)*0.40 + (I-50)*0.20] clamped to [0,100],
    where the individual leg reads the inverted table; the result lies in
    [0,100]; (strong_buy, strong_buy, strong_sell) gives 100 and
    (neutral, neutral, neutral) gives 50. *)
Theorem supply_score_is_spec_formula :
  (forall f o i : trend,
      Analysis.calculate_supply_score f o i = Return (ScoreSpec.composite f o i) /\
      Collector.calculate_supply_score f o i = Return (ScoreSpec.composite f o i) /\
      0 <= ScoreSpec.composite f o i <= 100 /\
      ScoreSpec.composite f o i = ScoreSpec.composite_clamped_first f o i) /\
  Analysis.calculate_supply_score strong_buy strong_buy strong_sell = Return 100 /\
  Collector.calculate_supply_score strong_buy strong_buy strong_sell = Return 100 /\
  Analysis.calculate_supply_score neutral neutral neutral = Return 50 /\
  Collector.calculate_supply_score neutral neutral neutral = Return 50.
Proof.
  split; [exact supply_score_values|].
  vm_compute. repeat split.
Qed.

(** ** Recommendation *)

(** C5. [get_recommendation] is a function of the score alone, and its
    value is fixed by the band the score falls in. *)
Theorem get_recommendation_bands :
  forall score : Z,
    (get_recommendation score = rec_strong_buy <-> 80 <= score) /\
    (get_recommendation score = rec_buy <-> 60 <= score < 80) /\
    (get_recommendation score = rec_hold <-> 40 <= score < 60) /\
    (get_recommendation score = rec_sell <-> 20 <= score < 40) /\
    (get_recommendation score = rec_strong_sell <-> score < 20).
Proof.
  intro score. unfold get_recommendation.
  destruct (Z.leb_spec 80 score); [|destruct (Z.leb_spec 60 score);
    [|destruct (Z.leb_spec 40 score); [|destruct (Z.leb_spec 20 score)]]];
    repeat split; intros; try discriminate; try lia; try reflexivity.
Qed.

(** ** Streak detector *)

Lemma sign_of_sgn (x : Z) : Collector.sign_of x = Z.sgn x.
Proof.
  unfold Collector.sign_of.
  destruct (Z.ltb_spec 0 x); [|destruct (Z.ltb_spec x 0)]; lia.
Qed.

Lemma continuous_loop_counts_run (s : Z) (rest : list Z) :
  forall acc, Collector.continuous_loop s rest acc
              = acc + Z.of_nat (StreakSpec.leading_run s rest).
Proof.
  induction rest as [|x rest IH]; intro acc; simpl.
  - lia.
  - rewrite sign_of_sgn. destruct (Z.sgn x =? s).
    + rewrite IH. lia.
    + lia.
Qed.

(** What [leading_run] counts: the elements before position [k] all have
    sign [s], and position [k] is the end of the list or holds another
    sign. *)
Lemma leading_run_is_maximal_prefix (s : Z) (l : list Z) :
  Forall (fun x => Z.sgn x = s) (firstn (StreakSpec.leading_run s l) l) /\
  match nth_error l (StreakSpec.leading_run s l) with
  | Some y => Z.sgn y <> s
  | None => StreakSpec.leading_run s l = length l
  end.
Proof.
  induction l as [|x l [IH1 IH2]]; simpl.
  - split; [constructor | reflexivity].
  - destruct (Z.eqb_spec (Z.sgn x) s) as [E|E]; simpl.
    + split; [constructor; assumption|].
      destruct (nth_error l (StreakSpec.leading_run s l)); [assumption | congruence].
    + split; [constructor | assumption].
Qed.

(** C2. [calculate_continuous_days] returns 0 on the empty sequence and
    when the first element is zero; otherwise the length of the leading
    run of elements with the first element's sign, times that sign. *)
Theorem continuous_days_is_signed_leading_run :
  (forall data : list Z,
      Collector.calculate_continuous_days data = StreakSpec.streak data) /\
  Collector.calculate_continuous_days [] = 0 /\
  (forall rest : list Z, Collector.calculate_continuous_days (0 :: rest) = 0) /\
  (forall (x : Z) (rest : list Z),
      x <> 0 ->
      Collector.calculate_continuous_days (x :: rest)
      = Z.of_nat (StreakSpec.leading_run (Z.sgn x) (x :: rest)) * Z.sgn x /\
      (1 <= StreakSpec.leading_run (Z.sgn x) (x :: rest))%nat) /\
  Collector.calculate_continuous_days [0; 5; 5] = 0 /\
  Collector.calculate_continuous_days [3; 2; 1; -1] = 3 /\
  Collector.calculate_continuous_days [-1; -2; 3] = -2.
Proof.
  assert (G : forall (x : Z) (rest : list Z),
             x <> 0 ->
             Collector.calculate_continuous_days (x :: rest)
             = Z.of_nat (StreakSpec.leading_run (Z.sgn x) (x :: rest)) * Z.sgn x /\
             (1 <= StreakSpec.leading_run (Z.sgn x) (x :: rest))%nat).
  { intros x rest Hx. unfold Collector.calculate_continuous_days.
    cbn [StreakSpec.leading_run]. rewrite Z.eqb_refl.
    rewrite sign_of_sgn.
    destruct (Z.eqb_spec (Z.sgn x) 0) as [E|E].
    - apply (proj1 (Z.sgn_null_iff x)) in E. contradiction.
    - rewrite continuous_loop_counts_run. split; lia. }
  repeat split; try reflexivity; try (apply G; assumption).
  intros [|x rest]; [reflexivity|].
  unfold StreakSpec.streak.
  destruct (Z.eqb_spec x 0) as [->|Hx]; [reflexivity|].
  apply G; assumption.
Qed.

Lemma continuous_days_is_signed_leading_run_witness :
  Collector.calculate_continuous_days (7 :: [4; -2])
  = Z.of_nat (StreakSpec.leading_run (Z.sgn 7) (7 :: [4; -2])) * Z.sgn 7 /\
  (1 <= StreakSpec.leading_run (Z.sgn 7%Z) (7 :: [4; -2])%Z)%nat.
Proof.
  apply (proj1 (proj2 (proj2 (proj2 continuous_days_is_signed_leading_run))) 7 [4; -2]).
  lia.
Defined.

(** ** Trend classifier *)

Lemma counts_le_length (w : list Z) :
  (count_positive w + count_negative w <= length w)%nat.
Proof.
  unfold count_positive, count_negative.
  induction w as [|x w IH]; simpl; [lia|].
  destruct (Z.ltb_spec 0 x); destruct (Z.ltb_spec x 0); simpl; lia.
Qed.

Lemma count_positive_all (w : list Z) :
  count_positive w = length w <-> Forall (fun x => 0 < x) w.
Proof.
  unfold count_positive. induction w as [|x w IH]; simpl.
  - split; [constructor | reflexivity].
  - pose proof (filter_length_le (fun x => 0 <? x) w) as L.
    destruct (Z.ltb_spec 0 x); simpl; split; intro H'.
    + constructor; [assumption | apply IH; lia].
    + inversion H' as [|? ? ? Hw]; subst. apply IH in Hw. lia.
    + lia.
    + inversion H'; subst. lia.
Qed.

Lemma count_negative_all (w : list Z) :
  count_negative w = length w <-> Forall (fun x => x < 0) w.
Proof.
  unfold count_negative. induction w as [|x w IH]; simpl.
  - split; [constructor | reflexivity].
  - pose proof (filter_length_le (fun x => x <? 0) w) as L.
    destruct (Z.ltb_spec x 0); simpl; split; intro H'.
    + constructor; [assumption | apply IH; lia].
    + inversion H' as [|? ? ? Hw]; subst. apply IH in Hw. lia.
    + lia.
    + inversion H'; subst. lia.
Qed.

(** A zero is counted by [len] and by neither tally. *)
Lemma zero_in_no_tally (l1 l2 : list Z) :
  count_positive (l1 ++ 0 :: l2) = count_positive (l1 ++ l2) /\
  count_negative (l1 ++ 0 :: l2) = count_negative (l1 ++ l2) /\
  length (l1 ++ 0 :: l2) = S (length (l1 ++ l2)).
Proof.
  unfold count_positive, count_negative.
  rewrite !filter_app, !length_app. simpl. repeat split; lia.
Qed.

Lemma zero_member_counts (w : list Z) :
  In 0 w -> (count_positive w < length w)%nat /\ (count_negative w < length w)%nat.
Proof.
  intro H. apply in_split in H as (l1 & l2 & ->).
  destruct (zero_in_no_tally l1 l2) as (-> & -> & ->).
  pose proof (counts_le_length (l1 ++ l2)). lia.
Qed.

(** The first two branches decide the strong labels by equality alone. *)
Lemma trend_of_counts_strong (p n t : nat) :
  (p < t)%nat -> (n < t)%nat ->
  trend_of_counts p n t <> strong_buy /\ trend_of_counts p n t <> strong_sell.
Proof.
  intros Hp Hn. unfold trend_of_counts.
  destruct (Nat.eqb_spec p t); [lia|].
  destruct (Nat.eqb_spec n t); [lia|].
  destruct (ge_fraction p t); destruct (ge_fraction n t); split; discriminate.
Qed.

(** The window of five: the product [5 * 0.7] is the double 3.5, and a
    count passes it from 4 on. *)
Lemma threshold_of_five :
  F64.mul (F64.of_Z 5) lit_0_7 = F64.decimal 35 (-1) /\
  forall c : nat, (c <= 5)%nat -> (ge_fraction c 5 = true <-> (4 <= c)%nat).
Proof.
  split; [vm_compute; reflexivity|].
  intros c Hc.
  destruct c as [|[|[|[|[|[|c]]]]]]; try lia;
    vm_compute; split; intro H; try discriminate H; try lia; reflexivity.
Qed.

Lemma trend_of_counts_five (p n : nat) :
  (p + n <= 5)%nat ->
  (trend_of_counts p n 5 = strong_buy <-> p = 5%nat) /\
  (trend_of_counts p n 5 = buy <-> p = 4%nat) /\
  (trend_of_counts p n 5 = strong_sell <-> n = 5%nat) /\
  (trend_of_counts p n 5 = sell <-> n = 4%nat) /\
  (trend_of_counts p n 5 = neutral <-> (p < 4)%nat /\ (n < 4)%nat).
Proof.
  intro H.
  destruct p as [|[|[|[|[|[|p]]]]]]; try lia;
  destruct n as [|[|[|[|[|[|n]]]]]]; try lia;
    vm_compute; repeat split; intros; try discriminate; try lia;
    try match goal with H : _ /\ _ |- _ => destruct H end; try lia.
Qed.

(** C3. On a window of five values both classifiers agree and return
    strong_buy iff all five are positive, buy iff four or more but not
    all are positive (the count is compared with the double 3.5),
    strong_sell iff all five are negative, sell iff four or more but not
    all are negative, neutral otherwise. *)
Theorem assess_trend_window_of_five :
  forall w : list Z,
    length w = 5%nat ->
    Analysis.assess_trend w = Collector.assess_trend w /\
    (Collector.assess_trend w = strong_buy <-> Forall (fun x => 0 < x) w) /\
    (Collector.assess_trend w = buy <->
       ge_fraction (count_positive w) 5 = true /\ ~ Forall (fun x => 0 < x) w) /\
    (Collector.assess_trend w = buy <->
       (4 <= count_positive w)%nat /\ ~ Forall (fun x => 0 < x) w) /\
    (Collector.assess_trend w = strong_sell <-> Forall (fun x => x < 0) w) /\
    (Collector.assess_trend w = sell <->
       (4 <= count_negative w)%nat /\ ~ Forall (fun x => x < 0) w) /\
    (Collector.assess_trend w = neutral <->
       (count_positive w < 4)%nat /\ (count_negative w < 4)%nat) /\
    F64.mul (F64.of_Z (Z.of_nat (length w))) lit_0_7 = F64.decimal 35 (-1).
Proof.
  intros w Hw.
  assert (HA : Analysis.assess_trend w
               = trend_of_counts (count_positive w) (count_negative w) 5).
  { unfold Analysis.assess_trend. rewrite Hw. reflexivity. }
  assert (HC : Collector.assess_trend w
               = trend_of_counts (count_positive w) (count_negative w) 5).
  { unfold Collector.assess_trend. rewrite Hw. simpl Nat.ltb. cbv iota.
    rewrite firstn_all2 by lia. rewrite Hw. reflexivity. }
  pose proof (counts_le_length w) as Hle. rewrite Hw in Hle.
  pose proof (count_positive_all w) as Hp. rewrite Hw in Hp.
  pose proof (count_negative_all w) as Hn. rewrite Hw in Hn.
  destruct (trend_of_counts_five _ _ Hle) as (T1 & T2 & T3 & T4 & T5).
  destruct threshold_of_five as [Hlit Hge].
  assert (Hpc : (count_positive w <= 5)%nat) by lia.
  specialize (Hge _ Hpc).
  rewrite HA, HC, Hw. rewrite <- Hp, <- Hn.
  split; [reflexivity|].
  split; [exact T1|].
  split; [rewrite T2, Hge; lia|].
  split; [rewrite T2; lia|].
  split; [exact T3|].
  split; [rewrite T4; lia|].
  split; [exact T5 | exact Hlit].
Qed.

Lemma assess_trend_window_of_five_witness :
  Analysis.assess_trend [1; 1; 1; 1; -1] = Collector.assess_trend [1; 1; 1; 1; -1] /\
  Collector.assess_trend [1; 1; 1; 1; -1] = buy /\
  Collector.assess_trend [1; 1; 1; -1; -1] = neutral.
Proof.
  pose proof (assess_trend_window_of_five [1; 1; 1; 1; -1] eq_refl)
    as (A & _ & _ & B & _).
  pose proof (assess_trend_window_of_five [1; 1; 1; -1; -1] eq_refl)
    as (_ & _ & _ & _ & _ & _ & N & _).
  split; [exact A|]. split.
  - apply B. split; [vm_compute; lia|]. intro F. inversion F as [|? ? ? F1]; subst.
    inversion F1 as [|? ? ? F2]; subst. inversion F2 as [|? ? ? F3]; subst.
    inversion F3 as [|? ? ? F4]; subst. inversion F4; subst. lia.
  - apply N. vm_compute. lia.
Defined.

(** ** Rounding keeps a positive value away from zero

    Facts about the binary64 rounding functions, needed to compare a
    product [n * 0.7] with zero for a window of any length. *)

Lemma digits2_pos_lower (m : positive) : 2 ^ (Zpos (digits2_pos m) - 1) <= Zpos m.
Proof.
  induction m as [m IH|m IH|]; cbn [digits2_pos].
  - rewrite Pos2Z.inj_succ.
    replace (Z.succ (Zpos (digits2_pos m)) - 1)
      with (Z.succ (Zpos (digits2_pos m) - 1)) by lia.
    rewrite Z.pow_succ_r by lia. lia.
  - rewrite Pos2Z.inj_succ.
    replace (Z.succ (Zpos (digits2_pos m)) - 1)
      with (Z.succ (Zpos (digits2_pos m) - 1)) by lia.
    rewrite Z.pow_succ_r by lia. lia.
  - simpl. lia.
Qed.

Lemma digits2_pos_upper (m : positive) : Zpos m < 2 ^ Zpos (digits2_pos m).
Proof.
  induction m as [m IH|m IH|]; cbn [digits2_pos].
  - rewrite Pos2Z.inj_succ, Z.pow_succ_r by lia. lia.
  - rewrite Pos2Z.inj_succ, Z.pow_succ_r by lia. lia.
  - simpl. lia.
Qed.

Lemma digits2_pos_mono (p q : positive) :
  Zpos p <= Zpos q -> Zpos (digits2_pos p) <= Zpos (digits2_pos q).
Proof.
  intro H.
  destruct (Z.le_gt_cases (Zpos (digits2_pos p)) (Zpos (digits2_pos q))) as [|G]; [assumption|].
  pose proof (digits2_pos_lower p). pose proof (digits2_pos_upper q).
  assert (2 ^ Zpos (digits2_pos q) <= 2 ^ (Zpos (digits2_pos p) - 1))
    by (apply Z.pow_le_mono_r; lia).
  lia.
Qed.

Lemma shr_1_lower (r : shr_record) (j : Z) :
  0 <= j -> 2 ^ (j + 1) <= shr_m r -> 2 ^ j <= shr_m (shr_1 r).
Proof.
  intros Hj H. rewrite Z.pow_add_r, Z.pow_1_r in H by lia.
  assert (0 < 2 ^ j) by (apply Z.pow_pos_nonneg; lia).
  destruct r as [m b s]. cbn [shr_m] in H.
  destruct m as [|[p|p|]|p]; cbn [shr_1 shr_m]; lia.
Qed.

Lemma iter_shr_1_lower (p : positive) :
  forall (r : shr_record) (j : Z),
    0 <= j -> 2 ^ (Zpos p + j) <= shr_m r -> 2 ^ j <= shr_m (iter_pos shr_1 p r).
Proof.
  induction p as [p IH|p IH|]; intros r j Hj H; cbn [iter_pos].
  - apply IH; [assumption|]. apply IH; [lia|].
    apply shr_1_lower; [lia|].
    replace (Zpos p + (Zpos p + j) + 1) with (Zpos p~1 + j) by lia. assumption.
  - apply IH; [assumption|]. apply IH; [lia|].
    replace (Zpos p + (Zpos p + j)) with (Zpos p~0 + j) by lia. assumption.
  - apply shr_1_lower; [assumption|].
    replace (j + 1) with (1 + j) by lia. assumption.
Qed.

Lemma shr_m_of_loc (m : Z) (l : location) : shr_m (shr_record_of_loc m l) = m.
Proof. destruct l as [|[| |]]; reflexivity. Qed.

Lemma shr_fexp_unfold (m e : Z) (l : location) :
  shr_fexp prec emax m e l
  = match Z.max (Zdigits2 m + e - 53) (-1074) - e with
    | Zpos p => (iter_pos shr_1 p (shr_record_of_loc m l),
                 e + (Z.max (Zdigits2 m + e - 53) (-1074) - e))
    | _ => (shr_record_of_loc m l, e)
    end.
Proof. reflexivity. Qed.

Lemma shr_fexp_keeps_positive (pm : positive) (e : Z) (l : location) :
  -1074 < Zpos (digits2_pos pm) + e ->
  exists r e', shr_fexp prec emax (Zpos pm) e l = (r, e') /\
    1 <= shr_m r /\ e <= e' /\
    forall q : positive, shr_m r <= Zpos q -> -1074 < Zpos (digits2_pos q) + e'.
Proof.
  intro H. rewrite shr_fexp_unfold. cbn [Zdigits2].
  set (d := Zpos (digits2_pos pm)) in *.
  destruct (Z.max (d + e - 53) (-1074) - e) as [|k|k] eqn:K.
  - eexists _, _. split; [reflexivity|]. rewrite shr_m_of_loc.
    repeat split; lia.
  - eexists _, _. split; [reflexivity|].
    assert (L : 2 ^ 0 <= shr_m (iter_pos shr_1 k (shr_record_of_loc (Zpos pm) l))).
    { apply iter_shr_1_lower; [lia|]. rewrite shr_m_of_loc.
      pose proof (digits2_pos_lower pm) as D. fold d in D.
      assert (2 ^ (Zpos k + 0) <= 2 ^ (d - 1)) by (apply Z.pow_le_mono_r; lia).
      lia. }
    simpl (2 ^ 0) in L.
    repeat split; lia.
  - eexists _, _. split; [reflexivity|]. rewrite shr_m_of_loc.
    split; [lia|]. split; [lia|].
    intros q Hq. pose proof (digits2_pos_mono pm q Hq) as M. fold d in M. lia.
Qed.

Lemma round_nearest_even_ge (m : Z) (l : location) : m <= round_nearest_even m l.
Proof.
  destruct l as [|[| |]]; cbn [round_nearest_even]; try lia.
  destruct (Z.even m); lia.
Qed.

Lemma binary_round_aux_positive (s : bool) (pm : positive) (e : Z) (l : location) :
  -1074 < Zpos (digits2_pos pm) + e ->
  (exists m' e', binary_round_aux prec emax s (Zpos pm) e l = S754_finite s m' e' /\ e <= e')
  \/ binary_round_aux prec emax s (Zpos pm) e l = S754_infinity s.
Proof.
  intro H. unfold binary_round_aux.
  change (Z.leb ?a (IntDef.Z.sub emax prec)) with (a <=? 971).
  destruct (shr_fexp_keeps_positive pm e l H) as (r & e' & -> & Hr & He & Hq).
  pose proof (round_nearest_even_ge (shr_m r) (loc_of_shr_record r)) as Hge.
  destruct (round_nearest_even (shr_m r) (loc_of_shr_record r)) as [|q|q] eqn:Q; try lia.
  destruct (shr_fexp_keeps_positive q e' loc_Exact (Hq q Hge)) as (r2 & e2 & -> & Hr2 & He2 & _).
  destruct (shr_m r2) as [|m2|m2]; try lia.
  destruct (e2 <=? 971); [left|right; reflexivity].
  exists m2, e2. split; [reflexivity | lia].
Qed.

Lemma of_Z_positive (p : positive) :
  (exists m e, F64.of_Z (Zpos p) = S754_finite false m e /\ -52 <= e)
  \/ F64.of_Z (Zpos p) = S754_infinity false.
Proof.
  unfold F64.of_Z, binary_normalize, binary_round, shl_align.
  change (fexp prec emax (IntDef.Z.add (Zpos (digits2_pos p)) 0))
    with (Z.max (Zpos (digits2_pos p) + 0 - 53) (-1074)).
  change (IntDef.Z.sub ?a 0) with (a - 0).
  destruct (Z.max (Zpos (digits2_pos p) + 0 - 53) (-1074) - 0) as [|k|k] eqn:K.
  - destruct (binary_round_aux_positive false p 0 loc_Exact) as [(m & e & -> & He)| ->];
      [lia | left; exists m, e; split; [reflexivity | lia] | right; reflexivity].
  - destruct (binary_round_aux_positive false p 0 loc_Exact) as [(m & e & -> & He)| ->];
      [lia | left; exists m, e; split; [reflexivity | lia] | right; reflexivity].
  - destruct (binary_round_aux_positive false (Pos.iter xO p k)
                (Z.max (Zpos (digits2_pos p) + 0 - 53) (-1074)) loc_Exact)
      as [(m & e & -> & He)| ->];
      [lia | left; exists m, e; split; [reflexivity | lia] | right; reflexivity].
Qed.

Lemma times_0_7_positive (p : positive) :
  (exists m e, F64.mul (F64.of_Z (Zpos p)) lit_0_7 = S754_finite false m e)
  \/ F64.mul (F64.of_Z (Zpos p)) lit_0_7 = S754_infinity false.
Proof.
  assert (L : lit_0_7 = S754_finite false 6305039478318694 (-53))
    by (vm_compute; reflexivity).
  rewrite L.
  destruct (of_Z_positive p) as [(m & e & -> & He)| ->]; [|right; reflexivity].
  unfold F64.mul, SFmul. cbn [xorb].
  change (IntDef.Z.add e (-53)) with (e + -53).
  destruct (binary_round_aux_positive false (m * 6305039478318694) (e + -53) loc_Exact)
    as [(m' & e' & -> & _)| ->].
  - assert (D : Zpos (digits2_pos 6305039478318694)
                <= Zpos (digits2_pos (m * 6305039478318694)))
      by (apply digits2_pos_mono; lia).
    change (Zpos (digits2_pos 6305039478318694)) with 53 in D. lia.
  - left. exists m', e'. reflexivity.
  - right. reflexivity.
Qed.

(** A tally of zero never reaches [total_count * 0.7] when the window is
    not empty. *)
Lemma ge_fraction_zero (total_count : nat) :
  (1 <= total_count)%nat -> ge_fraction 0 total_count = false.
Proof.
  intro H. unfold ge_fraction.
  destruct (Z.of_nat total_count) as [|p|p] eqn:E; try lia.
  destruct (times_0_7_positive p) as [(m & e & ->)| ->]; reflexivity.
Qed.

Lemma Forall_firstn_keeps {A : Type} (P : A -> Prop) (n : nat) (l : list A) :
  Forall P l -> Forall P (firstn n l).
Proof.
  intro H. revert n. induction H as [|x l Hx _ IH]; intros [|n]; simpl;
    constructor; auto.
Qed.

Lemma all_zero_counts (w : list Z) :
  Forall (fun x => x = 0) w -> count_positive w = 0%nat /\ count_negative w = 0%nat.
Proof.
  unfold count_positive, count_negative.
  induction 1 as [|x w Hx _ [IHp IHn]]; [split; reflexivity|].
  subst x. simpl. split; assumption.
Qed.

Lemma trend_of_counts_no_tally (total_count : nat) :
  (1 <= total_count)%nat -> trend_of_counts 0 0 total_count = neutral.
Proof.
  intro H. unfold trend_of_counts.
  destruct (Nat.eqb_spec 0 total_count); [lia|].
  rewrite ge_fraction_zero by assumption. reflexivity.
Qed.

(** The guard of [collect_stockdemand.py]: fewer than three values give
    neutral. *)
Lemma collector_assess_trend_short (data : list Z) :
  (length data < 3)%nat -> Collector.assess_trend data = neutral.
Proof.
  intro H. unfold Collector.assess_trend.
  destruct (Nat.ltb_spec (length data) 3); [reflexivity | lia].
Qed.

(** The guard of [analysis.py] is [len(data) < 2]. *)
Lemma analysis_assess_trend_short (data : list Z) :
  (length data < 2)%nat -> Analysis.assess_trend data = neutral.
Proof.
  intro H. unfold Analysis.assess_trend.
  destruct (Nat.ltb_spec (length data) 2); [reflexivity | lia].
Qed.

(** C4. [StockAnalyzer.assess_trend] of [analysis.py] classifies a window
    of two values: [[1, 1]] is strong_buy there, while the method of
    [collect_stockdemand.py] returns neutral for it. *)
Theorem analysis_assess_trend_two_values :
  Analysis.assess_trend [1; 1] = strong_buy /\
  Collector.assess_trend [1; 1] = neutral.
Proof. split; reflexivity. Qed.

(** C10. A zero adds to the window length and to neither tally; a window
    with a zero among the inspected values is never strong_buy nor
    strong_sell ([[1,1,1,1,0]] is buy); three or more zeros and nothing
    else give neutral. *)
Theorem zero_values_in_window :
  (forall l1 l2 : list Z,
      count_positive (l1 ++ 0 :: l2) = count_positive (l1 ++ l2) /\
      count_negative (l1 ++ 0 :: l2) = count_negative (l1 ++ l2) /\
      length (l1 ++ 0 :: l2) = S (length (l1 ++ l2))) /\
  (forall data : list Z,
      In 0 (firstn 5 data) ->
      Collector.assess_trend data <> strong_buy /\
      Collector.assess_trend data <> strong_sell) /\
  (forall data : list Z,
      In 0 data ->
      Analysis.assess_trend data <> strong_buy /\
      Analysis.assess_trend data <> strong_sell) /\
  Collector.assess_trend [1; 1; 1; 1; 0] = buy /\
  Analysis.assess_trend [1; 1; 1; 1; 0] = buy /\
  (forall data : list Z,
      (3 <= length data)%nat ->
      Forall (fun x => x = 0) data ->
      Collector.assess_trend data = neutral /\
      Analysis.assess_trend data = neutral).
Proof.
  split; [exact zero_in_no_tally|].
  split.
  { intros data H. unfold Collector.assess_trend.
    destruct (length data <? 3)%nat; [split; discriminate|].
    apply zero_member_counts in H as [Hp Hn].
    apply trend_of_counts_strong; assumption. }
  split.
  { intros data H. unfold Analysis.assess_trend.
    destruct (length data <? 2)%nat; [split; discriminate|].
    apply zero_member_counts in H as [Hp Hn].
    apply trend_of_counts_strong; assumption. }
  split; [vm_compute; reflexivity|].
  split; [vm_compute; reflexivity|].
  intros data Hlen Hz. split.
  - unfold Collector.assess_trend.
    destruct (Nat.ltb_spec (length data) 3); [lia|].
    assert (Hz' : Forall (fun x => x = 0) (firstn 5 data)).
    { apply Forall_firstn_keeps. exact Hz. }
    destruct (all_zero_counts _ Hz') as [-> ->].
    apply trend_of_counts_no_tally. rewrite length_firstn. lia.
  - unfold Analysis.assess_trend.
    destruct (Nat.ltb_spec (length data) 2); [lia|].
    destruct (all_zero_counts _ Hz) as [-> ->].
    apply trend_of_counts_no_tally. lia.
Qed.

Lemma zero_values_in_window_witness :
  Collector.assess_trend [0; 0; 0; 0; 0; 0; 0] = neutral /\
  Analysis.assess_trend [0; 0; 0; 0; 0; 0; 0] = neutral.
Proof.
  apply (proj2 (proj2 (proj2 (proj2 (proj2 zero_values_in_window))))
           [0; 0; 0; 0; 0; 0; 0]).
  - simpl. lia.
  - repeat constructor.
Defined.

(** ** Numeric normalizer *)

(** Outside NaN and the infinities [safe_int_convert] returns. *)
Lemma safe_int_convert_returns (B : builtins) (v : pyvalue) :
  finite_or_not_float v -> exists z, DataCollector.safe_int_convert B v = Return z.
Proof.
  intro H. destruct v as [|b|z|x|b|s|l|d]; simpl; try (eexists; reflexivity).
  - destruct x; simpl in *; try contradiction; eexists; reflexivity.
  - destruct (Text.decode_utf8 b); simpl; [|eexists; reflexivity].
    destruct (int_of_str B s); simpl; eexists; reflexivity.
  - destruct (int_of_str B _); simpl; eexists; reflexivity.
Qed.

(** [safe_float_convert] returns unless it is given an integer beyond
    the range of a double. *)
Lemma safe_float_convert_returns (B : builtins) (v : pyvalue) :
  (forall z, v = PyInt z -> exists x, F64.of_int z = Return x) ->
  exists x, DataCollector.safe_float_convert B v = Return x.
Proof.
  intro H. destruct v as [|b|z|x|b|s|l|d]; simpl; try (eexists; reflexivity).
  - apply H. reflexivity.
  - destruct (Text.decode_utf8 b); simpl; [|eexists; reflexivity].
    destruct (float_of_str B s); simpl; eexists; reflexivity.
  - destruct (float_of_str B _); simpl; eexists; reflexivity.
Qed.

(** The converters of [collect_stockdemand.py] call [str(value)] before
    their [try]: they return on every value whose [str] does, on text
    in particular. *)
Lemma parse_numeric_string_returns (B : builtins) (v : pyvalue) (text : string) :
  py_str B v = Return text ->
  exists z, Collector.parse_numeric_string B v = Return z.
Proof.
  intro S. unfold Collector.parse_numeric_string.
  destruct (negb (truthy v) || equals_text v "N/A" || equals_text v "");
    [eexists; reflexivity|].
  rewrite S. cbn [bind].
  destruct (String.eqb _ ""); [eexists; reflexivity|].
  destruct (Text.starts_with_minus _);
    destruct (int_of_str B _); simpl; eexists; reflexivity.
Qed.

Lemma parse_ratio_string_returns (B : builtins) (v : pyvalue) (text : string) :
  py_str B v = Return text ->
  exists x, Collector.parse_ratio_string B v = Return x.
Proof.
  intro S. unfold Collector.parse_ratio_string.
  destruct (negb (truthy v) || equals_text v "N/A" || equals_text v "");
    [eexists; reflexivity|].
  rewrite S. cbn [bind].
  destruct (String.eqb _ ""); [eexists; reflexivity|].
  destruct (float_of_str B _); simpl; eexists; reflexivity.
Qed.

(** Text that does not parse once the symbols are removed gives zero. *)
Lemma unparseable_text_gives_zero (B : builtins) (s : string) :
  (int_of_str B (Text.remove_chars ["+"; ","]%char s) = None ->
   DataCollector.safe_int_convert B (PyStr s) = Return 0) /\
  (float_of_str B (Text.remove_chars ["%"]%char s) = None ->
   DataCollector.safe_float_convert B (PyStr s) = Return (S754_zero false)).
Proof. split; intro H; simpl; rewrite H; reflexivity. Qed.

(** The examples of the specification, on both pairs of converters. *)
Lemma normalizer_examples :
  DataCollector.safe_int_convert ascii_builtins PyNone = Return 0 /\
  DataCollector.safe_int_convert ascii_builtins (PyStr "1,234") = Return 1234 /\
  DataCollector.safe_int_convert ascii_builtins (PyStr "+57") = Return 57 /\
  DataCollector.safe_int_convert ascii_builtins (PyStr "abc") = Return 0 /\
  DataCollector.safe_float_convert ascii_builtins (PyStr "12.5%")
    = Return (F64.decimal 125 (-1)) /\
  DataCollector.safe_float_convert ascii_builtins (PyStr "") = Return (S754_zero false) /\
  Collector.parse_numeric_string ascii_builtins PyNone = Return 0 /\
  Collector.parse_numeric_string ascii_builtins (PyStr "1,234") = Return 1234 /\
  Collector.parse_numeric_string ascii_builtins (PyStr "+57") = Return 57 /\
  Collector.parse_numeric_string ascii_builtins (PyStr "abc") = Return 0 /\
  Collector.parse_ratio_string ascii_builtins (PyStr "12.5%")
    = Return (F64.decimal 125 (-1)) /\
  Collector.parse_ratio_string ascii_builtins (PyStr "") = Return (S754_zero false).
Proof. vm_compute. repeat split. Qed.

(** C6. The numeric branch of the converters of [data_collector.py] is
    outside every [try]: [int(value)] raises on NaN and on an infinity,
    [float(value)] raises on an integer too large for a double. *)
Theorem safe_convert_raises_on_numeric :
  forall B : builtins,
    DataCollector.safe_int_convert B (PyFloat F64.nan) = Raise ValueError /\
    DataCollector.safe_int_convert B (PyFloat F64.infinity) = Raise OverflowError /\
    DataCollector.safe_float_convert B (PyInt (10 ^ 400)) = Raise OverflowError.
Proof. intro B. vm_compute. repeat split. Qed.

(** The bytes branch: decode, then parse with nothing removed. *)
Lemma safe_int_convert_bytes (B : builtins) (b : string) :
  DataCollector.safe_int_convert B (PyBytes b)
  = Return match Text.decode_utf8 b with
           | Some s => match int_of_str B s with
                       | Some z => z
                       | None => 0
                       end
           | None => 0
           end.
Proof.
  simpl. destruct (Text.decode_utf8 b); simpl; [|reflexivity].
  destruct (int_of_str B s); reflexivity.
Qed.

Lemma safe_float_convert_bytes (B : builtins) (b : string) :
  DataCollector.safe_float_convert B (PyBytes b)
  = Return match Text.decode_utf8 b with
           | Some s => match float_of_str B s with
                       | Some x => x
                       | None => S754_zero false
                       end
           | None => S754_zero false
           end.
Proof.
  simpl. destruct (Text.decode_utf8 b); simpl; [|reflexivity].
  destruct (float_of_str B s); reflexivity.
Qed.

(** C7, as the code has it.  A byte sequence that decodes is parsed as
    it stands, with no symbol removed, and falls back to zero when that
    parse fails; the result is the textual rule's whenever the decoded
    text holds none of the removed symbols; a sequence that does not
    decode gives zero. *)
Theorem bytes_are_decoded_and_parsed_unstripped :
  forall (B : builtins) (b : string),
    (forall s : string,
        Text.decode_utf8 b = Some s ->
        DataCollector.safe_int_convert B (PyBytes b)
        = Return match int_of_str B s with Some z => z | None => 0 end /\
        DataCollector.safe_float_convert B (PyBytes b)
        = Return match float_of_str B s with Some x => x | None => S754_zero false end /\
        (Text.remove_chars ["+"; ","]%char s = s ->
         DataCollector.safe_int_convert B (PyBytes b)
         = DataCollector.safe_int_convert B (PyStr s)) /\
        (Text.remove_chars ["%"]%char s = s ->
         DataCollector.safe_float_convert B (PyBytes b)
         = DataCollector.safe_float_convert B (PyStr s))) /\
    (Text.decode_utf8 b = None ->
     DataCollector.safe_int_convert B (PyBytes b) = Return 0 /\
     DataCollector.safe_float_convert B (PyBytes b) = Return (S754_zero false)).
Proof.
  intros B b. rewrite safe_int_convert_bytes, safe_float_convert_bytes. split.
  - intros s ->. split; [reflexivity|]. split; [reflexivity|]. split.
    + intro E. simpl. rewrite E. destruct (int_of_str B s); reflexivity.
    + intro E. simpl. rewrite E. destruct (float_of_str B s); reflexivity.
  - intros ->. split; reflexivity.
Qed.

Lemma bytes_are_decoded_and_parsed_unstripped_witness :
  DataCollector.safe_int_convert ascii_builtins (PyBytes "1234")
  = DataCollector.safe_int_convert ascii_builtins (PyStr "1234") /\
  DataCollector.safe_int_convert ascii_builtins
    (PyBytes (String (ascii_of_N 255) EmptyString)) = Return 0.
Proof.
  split.
  - apply (proj1 (bytes_are_decoded_and_parsed_unstripped ascii_builtins "1234"%string)
             "1234"%string);
      reflexivity.
  - apply (proj2 (bytes_are_decoded_and_parsed_unstripped ascii_builtins
                    (String (ascii_of_N 255) EmptyString))).
    reflexivity.
Defined.

(** C7, as stated, fails on [b"1,234"]: the bytes decode, the textual
    rule gives 1234, the converter gives 0. *)
Lemma bytes_with_separator_give_zero :
  Text.decode_utf8 "1,234" = Some "1,234"%string /\
  DataCollector.safe_int_convert ascii_builtins (PyStr "1,234") = Return 1234 /\
  DataCollector.safe_int_convert ascii_builtins (PyBytes "1,234") = Return 0 /\
  DataCollector.safe_int_convert ascii_builtins (PyBytes "1,234")
  <> DataCollector.safe_int_convert ascii_builtins (PyStr "1,234").
Proof. vm_compute. repeat split. intro H. discriminate H. Qed.

(** ** Record parser *)



(** The reformatting step on text of any length. *)
Lemma format_date_of_text (B : builtins) (s : string) :
  format_date B (PyStr s) = Return (reformatted s).
Proof. reflexivity. Qed.








(** ** Ordered queries *)

Lemma in_insert_desc {A : Type} (g : A -> A -> bool) (x y : A) (l : list A) :
  In x (Analysis.insert_desc g y l) <-> x = y \/ In x l.
Proof.
  induction l as [|z l IH]; simpl.
  - intuition congruence.
  - destruct (g y z); simpl; [intuition congruence|].
    rewrite IH. intuition congruence.
Qed.

Lemma in_order_by_desc {A : Type} (g : A -> A -> bool) (x : A) (l : list A) :
  In x (Analysis.order_by_desc g l) <-> In x l.
Proof.
  induction l as [|y l IH]; simpl; [reflexivity|].
  rewrite in_insert_desc, IH. intuition congruence.
Qed.

Section OrderBy.

Context {A : Type} (key : A -> Z).

Let geb (a b : A) : bool := key b <=? key a.



End OrderBy.


(** * Further properties of the code *)

(** ** Score and recommendation together *)

(** X1. Both score methods return exactly [(2 F + 2 O + I) / 5] for the
    table values of the three labels: the weighted sum is a whole
    number, so neither [int()] nor the clamp changes it. *)
Theorem supply_score_closed_form :
  forall f o i : trend,
  exists score : Z,
    Analysis.calculate_supply_score f o i = Return score /\
    Collector.calculate_supply_score f o i = Return score /\
    5 * score = 2 * foreigner_map f + 2 * organ_map o + individual_map i.
Proof.
  intros f o i. exists (ScoreSpec.composite f o i).
  destruct (supply_score_values f o i) as (HA & HC & _).
  split; [exact HA|]. split; [exact HC|].
  destruct f, o, i; reflexivity.
Qed.

Lemma composite_closed_form (f o i : trend) :
  5 * ScoreSpec.composite f o i
  = 2 * foreigner_map f + 2 * organ_map o + individual_map i.
Proof. destruct f, o, i; reflexivity. Qed.

Lemma get_recommendation_monotone (s s' : Z) :
  s <= s' -> rec_rank (get_recommendation s) <= rec_rank (get_recommendation s').
Proof.
  intro H. unfold get_recommendation.
  destruct (Z.leb_spec 80 s); destruct (Z.leb_spec 80 s'); simpl; try lia;
  destruct (Z.leb_spec 60 s); destruct (Z.leb_spec 60 s'); simpl; try lia;
  destruct (Z.leb_spec 40 s); destruct (Z.leb_spec 40 s'); simpl; try lia;
  destruct (Z.leb_spec 20 s); destruct (Z.leb_spec 20 s'); simpl; lia.
Qed.

(** X2. A foreign or institutional label with a higher table value, or
    an individual label with a higher inverted value, never lowers the
    score nor the recommendation. *)
Theorem supply_score_monotone :
  forall f f' o o' i i' : trend,
    foreigner_map f <= foreigner_map f' ->
    organ_map o <= organ_map o' ->
    individual_map i <= individual_map i' ->
    exists s s' : Z,
      Analysis.calculate_supply_score f o i = Return s /\
      Analysis.calculate_supply_score f' o' i' = Return s' /\
      Collector.calculate_supply_score f o i = Return s /\
      Collector.calculate_supply_score f' o' i' = Return s' /\
      s <= s' /\
      rec_rank (get_recommendation s) <= rec_rank (get_recommendation s').
Proof.
  intros f f' o o' i i' Hf Ho Hi.
  exists (ScoreSpec.composite f o i), (ScoreSpec.composite f' o' i').
  destruct (supply_score_values f o i) as (HA & HC & _).
  destruct (supply_score_values f' o' i') as (HA' & HC' & _).
  pose proof (composite_closed_form f o i).
  pose proof (composite_closed_form f' o' i').
  assert (L : ScoreSpec.composite f o i <= ScoreSpec.composite f' o' i') by lia.
  repeat split; try assumption.
  apply get_recommendation_monotone. exact L.
Qed.

Lemma supply_score_monotone_witness :
  exists s s' : Z,
    Analysis.calculate_supply_score sell neutral buy = Return s /\
    Analysis.calculate_supply_score buy neutral sell = Return s' /\
    Collector.calculate_supply_score sell neutral buy = Return s /\
    Collector.calculate_supply_score buy neutral sell = Return s' /\
    s <= s' /\
    rec_rank (get_recommendation s) <= rec_rank (get_recommendation s').
Proof.
  apply (supply_score_monotone sell buy neutral neutral buy sell); simpl; lia.
Defined.

(** X3. The individual label alone moves the recommendation by at most
    one band, and two strong_buy labels on the foreign and institutional
    legs give the recommendation strong_buy whatever the individual
    label is. *)
Theorem individual_leg_moves_one_band :
  forall f o i i' : trend,
  exists s s' top : Z,
    Analysis.calculate_supply_score f o i = Return s /\
    Analysis.calculate_supply_score f o i' = Return s' /\
    Z.abs (rec_rank (get_recommendation s) - rec_rank (get_recommendation s')) <= 1 /\
    Analysis.calculate_supply_score strong_buy strong_buy i = Return top /\
    get_recommendation top = rec_strong_buy.
Proof.
  intros f o i i'.
  exists (ScoreSpec.composite f o i), (ScoreSpec.composite f o i'),
         (ScoreSpec.composite strong_buy strong_buy i).
  destruct (supply_score_values f o i) as (HA & _).
  destruct (supply_score_values f o i') as (HA' & _).
  destruct (supply_score_values strong_buy strong_buy i) as (HT & _).
  split; [exact HA|]. split; [exact HA'|].
  split; [destruct f, o, i, i'; vm_compute; intro H; discriminate H|].
  split; [exact HT|].
  destruct i; reflexivity.
Qed.

(** ** Streak detector *)

Lemma leading_run_le_length (s : Z) (l : list Z) :
  (StreakSpec.leading_run s l <= length l)%nat.
Proof.
  induction l as [|x l IH]; simpl; [lia|].
  destruct (Z.sgn x =? s); simpl; lia.
Qed.

Lemma continuous_days_value (x : Z) (rest : list Z) :
  Collector.calculate_continuous_days (x :: rest)
  = Z.sgn x * (1 + Z.of_nat (StreakSpec.leading_run (Z.sgn x) rest)).
Proof.
  unfold Collector.calculate_continuous_days. rewrite sign_of_sgn.
  destruct (Z.eqb_spec (Z.sgn x) 0) as [E|E]; [rewrite E; lia|].
  rewrite continuous_loop_counts_run. lia.
Qed.

(** X4. The streak is never longer than the sequence and carries the
    sign of the first element. *)
Theorem continuous_days_bound_and_sign :
  forall data : list Z,
    Z.abs (Collector.calculate_continuous_days data) <= Z.of_nat (length data) /\
    Z.sgn (Collector.calculate_continuous_days data)
    = match data with
      | [] => 0
      | x :: _ => Z.sgn x
      end.
Proof.
  intros [|x rest]; [split; reflexivity|].
  rewrite continuous_days_value.
  pose proof (leading_run_le_length (Z.sgn x) rest) as L. simpl length.
  destruct (Z.sgn_spec x) as [[_ S]|[[_ S]|[_ S]]]; rewrite S in *; split; lia.
Qed.

Lemma leading_run_same_signs (s : Z) (l l' : list Z) :
  map Z.sgn l = map Z.sgn l' ->
  StreakSpec.leading_run s l = StreakSpec.leading_run s l'.
Proof.
  revert l'. induction l as [|x l IH]; intros [|x' l'] H; simpl in *;
    try discriminate; [reflexivity|].
  inversion H as [[Hx Hl]]. rewrite Hx, (IH l' Hl). reflexivity.
Qed.

Lemma leading_run_opp (s : Z) (l : list Z) :
  StreakSpec.leading_run (- s) (map Z.opp l) = StreakSpec.leading_run s l.
Proof.
  induction l as [|x l IH]; simpl; [reflexivity|].
  rewrite Z.sgn_opp, IH.
  destruct (Z.eqb_spec (- Z.sgn x) (- s)); destruct (Z.eqb_spec (Z.sgn x) s);
    try reflexivity; lia.
Qed.

(** X5. The streak depends on the signs of the values only, and
    negating every value negates the streak. *)
Theorem continuous_days_reads_signs_only :
  (forall data data' : list Z,
      map Z.sgn data = map Z.sgn data' ->
      Collector.calculate_continuous_days data
      = Collector.calculate_continuous_days data') /\
  (forall data : list Z,
      Collector.calculate_continuous_days (map Z.opp data)
      = - Collector.calculate_continuous_days data).
Proof.
  split.
  - intros [|x rest] [|x' rest'] H; simpl in H; try discriminate; [reflexivity|].
    inversion H as [[Hx Hr]].
    rewrite !continuous_days_value, Hx, (leading_run_same_signs _ _ _ Hr).
    reflexivity.
  - intros [|x rest]; [reflexivity|].
    simpl map. rewrite !continuous_days_value, Z.sgn_opp, leading_run_opp. lia.
Qed.

Lemma continuous_days_reads_signs_only_witness :
  Collector.calculate_continuous_days [300; 20; -1; 7]
  = Collector.calculate_continuous_days [1; 1; -5; 2].
Proof.
  apply (proj1 continuous_days_reads_signs_only). reflexivity.
Defined.

Lemma leading_run_app_short (s : Z) (l tail : list Z) :
  (StreakSpec.leading_run s l < length l)%nat ->
  StreakSpec.leading_run s (l ++ tail) = StreakSpec.leading_run s l.
Proof.
  induction l as [|x l IH]; simpl; [lia|].
  destruct (Z.sgn x =? s); [|reflexivity].
  intro H. rewrite IH by lia. reflexivity.
Qed.

(** X6. Once the run has ended inside the sequence, older values
    appended behind it do not change the streak. *)
Theorem continuous_days_ignores_values_after_break :
  forall data tail : list Z,
    Z.abs (Collector.calculate_continuous_days data) < Z.of_nat (length data) ->
    Collector.calculate_continuous_days (data ++ tail)
    = Collector.calculate_continuous_days data.
Proof.
  intros [|x rest] tail H; [simpl in H; lia|].
  simpl app. rewrite !continuous_days_value in *.
  destruct (Z.eq_dec (Z.sgn x) 0) as [E|E]; [rewrite E; reflexivity|].
  rewrite leading_run_app_short; [reflexivity|].
  simpl length in H.
  destruct (Z.sgn_spec x) as [[_ S]|[[_ S]|[_ S]]]; rewrite S in *; lia.
Qed.

Lemma continuous_days_ignores_values_after_break_witness :
  Collector.calculate_continuous_days ([3; 2; -1] ++ [5; 5])
  = Collector.calculate_continuous_days [3; 2; -1].
Proof.
  apply (continuous_days_ignores_values_after_break [3; 2; -1] [5; 5]).
  vm_compute. reflexivity.
Defined.

(** ** Trend classifier *)

Lemma counts_of_opposites (w : list Z) :
  count_positive (map Z.opp w) = count_negative w /\
  count_negative (map Z.opp w) = count_positive w.
Proof.
  unfold count_positive, count_negative.
  induction w as [|x w [IHp IHn]]; simpl; [split; reflexivity|].
  destruct (Z.ltb_spec 0 (- x)); destruct (Z.ltb_spec x 0); try lia;
    destruct (Z.ltb_spec (- x) 0); destruct (Z.ltb_spec 0 x); try lia;
    simpl; split; congruence.
Qed.

Lemma trend_of_counts_swap (p n t : nat) :
  (p + n <= t)%nat -> (1 <= t <= 5)%nat ->
  trend_of_counts n p t = opposite (trend_of_counts p n t).
Proof.
  intros H Ht.
  destruct t as [|[|[|[|[|[|t]]]]]]; try lia;
  destruct p as [|[|[|[|[|[|p]]]]]]; try lia;
  destruct n as [|[|[|[|[|[|n]]]]]]; try lia; vm_compute; reflexivity.
Qed.

(** X7. [assess_trend] of [collect_stockdemand.py] reads the first five
    values only: whatever follows them leaves the label unchanged. *)
Theorem collector_assess_trend_reads_five :
  forall data tail : list Z,
    (5 <= length data)%nat ->
    Collector.assess_trend (data ++ tail) = Collector.assess_trend data.
Proof.
  intros data tail H. unfold Collector.assess_trend.
  rewrite length_app.
  destruct (Nat.ltb_spec (length data + length tail) 3); [lia|].
  destruct (Nat.ltb_spec (length data) 3); [lia|].
  rewrite firstn_app. replace (5 - length data)%nat with 0%nat by lia.
  rewrite firstn_O, app_nil_r. reflexivity.
Qed.

Lemma collector_assess_trend_reads_five_witness :
  Collector.assess_trend ([1; 2; 3; 4; -5] ++ [-6; -7; -8])
  = Collector.assess_trend [1; 2; 3; 4; -5].
Proof.
  apply (collector_assess_trend_reads_five [1; 2; 3; 4; -5] [-6; -7; -8]).
  simpl. lia.
Defined.

(** X8. Negating every value turns the label into its opposite: for
    [collect_stockdemand.py] on every sequence, for [analysis.py] on the
    windows of up to five values that [calculate_supply_trend] passes. *)
Theorem assess_trend_of_opposites :
  (forall data : list Z,
      Collector.assess_trend (map Z.opp data) = opposite (Collector.assess_trend data)) /\
  (forall data : list Z,
      (length data <= 5)%nat ->
      Analysis.assess_trend (map Z.opp data) = opposite (Analysis.assess_trend data)).
Proof.
  split.
  - intro data. unfold Collector.assess_trend. rewrite length_map.
    destruct (Nat.ltb_spec (length data) 3); [reflexivity|].
    rewrite firstn_map, length_map.
    destruct (counts_of_opposites (firstn 5 data)) as [-> ->].
    apply trend_of_counts_swap.
    + apply counts_le_length.
    + rewrite length_firstn. lia.
  - intros data H. unfold Analysis.assess_trend. rewrite length_map.
    destruct (Nat.ltb_spec (length data) 2); [reflexivity|].
    destruct (counts_of_opposites data) as [-> ->].
    apply trend_of_counts_swap; [apply counts_le_length | lia].
Qed.

Lemma assess_trend_of_opposites_witness :
  Analysis.assess_trend (map Z.opp [4; 1; 9; 2])
  = opposite (Analysis.assess_trend [4; 1; 9; 2]).
Proof.
  apply (proj2 assess_trend_of_opposites [4; 1; 9; 2]). simpl. lia.
Defined.

(** X9. With exactly three values the labels buy and sell cannot occur:
    70% of three is 2.1, so two values of one sign are not enough and
    three give the strong label. *)
Theorem assess_trend_of_three_values :
  forall w : list Z,
    length w = 3%nat ->
    Collector.assess_trend w = Analysis.assess_trend w /\
    (Collector.assess_trend w = strong_buy <-> Forall (fun x => 0 < x) w) /\
    (Collector.assess_trend w = strong_sell <-> Forall (fun x => x < 0) w) /\
    (Collector.assess_trend w = neutral <->
       ~ Forall (fun x => 0 < x) w /\ ~ Forall (fun x => x < 0) w) /\
    Collector.assess_trend w <> buy /\
    Collector.assess_trend w <> sell.
Proof.
  intros w Hw.
  assert (HC : Collector.assess_trend w
               = trend_of_counts (count_positive w) (count_negative w) 3).
  { unfold Collector.assess_trend. rewrite Hw. simpl Nat.ltb. cbv iota.
    rewrite firstn_all2 by lia. rewrite Hw. reflexivity. }
  assert (HA : Analysis.assess_trend w
               = trend_of_counts (count_positive w) (count_negative w) 3).
  { unfold Analysis.assess_trend. rewrite Hw. reflexivity. }
  pose proof (counts_le_length w) as Hle. rewrite Hw in Hle.
  rewrite <- count_positive_all, <- count_negative_all, Hw, HC, HA.
  destruct (count_positive w) as [|[|[|[|p]]]]; try lia;
  destruct (count_negative w) as [|[|[|[|n]]]]; try lia;
    vm_compute; repeat split; intros; try discriminate; try lia;
    try match goal with H : _ /\ _ |- _ => destruct H end; try lia;
    try congruence.
Qed.

Lemma assess_trend_of_three_values_witness :
  Collector.assess_trend [5; 7; -1] <> buy.
Proof.
  apply (assess_trend_of_three_values [5; 7; -1] eq_refl).
Defined.

(** X10. The two [assess_trend] methods return the same label on every
    sequence of three to five values, and on those of fewer than two. *)
Theorem assess_trend_methods_agree :
  forall w : list Z,
    (length w < 2)%nat \/ (3 <= length w <= 5)%nat ->
    Analysis.assess_trend w = Collector.assess_trend w.
Proof.
  intros w H. unfold Analysis.assess_trend, Collector.assess_trend.
  destruct (Nat.ltb_spec (length w) 2); destruct (Nat.ltb_spec (length w) 3);
    try reflexivity; try lia.
  rewrite firstn_all2 by lia. reflexivity.
Qed.

Lemma assess_trend_methods_agree_witness :
  Analysis.assess_trend [1; -2; 3; 4] = Collector.assess_trend [1; -2; 3; 4].
Proof.
  apply (assess_trend_methods_agree [1; -2; 3; 4]). right. simpl. lia.
Defined.

(** ** Record parsers *)

Lemma data_collector_parse_loop_app (B : builtins) (code name : string)
    (before rest : list pyvalue) :
  Forall is_mapping before ->
  forall acc,
    DataCollector.parse_loop B code name (before ++ rest) acc
    = DataCollector.parse_loop B code name rest
        (acc ++ flat_map (emitted (DataCollector.parse_item B code name)) before).
Proof.
  induction 1 as [|item before Hitem _ IH]; intro acc; simpl.
  - rewrite app_nil_r. reflexivity.
  - unfold emitted at 1.
    destruct (DataCollector.parse_item B code name item).
    + rewrite IH, <- app_assoc. reflexivity.
    + destruct item; try contradiction. simpl. apply IH.
Qed.



Lemma percent_change_guard (price_change prev_close : Z) (v : pyvalue) :
  percent_change price_change prev_close = Return v ->
  prev_close = 0 -> v = PyInt 0.
Proof.
  unfold percent_change. intros H ->. simpl in H. inversion H. reflexivity.
Qed.

Lemma percent_change_never_divides_by_zero (price_change prev_close : Z) :
  percent_change price_change prev_close <> Raise ZeroDivisionError.
Proof.
  unfold percent_change, F64.int_truediv.
  destruct (Z.eqb_spec prev_close 0) as [->|Hne]; simpl; [discriminate|].
  destruct (F64.of_ratio _ _ _); simpl; discriminate.
Qed.

(** What every emitted record satisfies. *)
Lemma parse_fields_record (B : builtins) to_int to_ratio finish code name item r :
  parse_fields B to_int to_ratio finish code name item = Return r ->
  stock_code r = code /\
  stock_name r = name /\
  net_institutional_buy r = foreigner_pure_buy r + organ_pure_buy r /\
  supply_demand_balance r = net_institutional_buy r + individual_pure_buy r /\
  (close_price r = price_change r -> change_rate r = finish (PyInt 0)) /\
  (exists d, item = PyDict d /\ dict_lookup d "bizdate" <> None).
Proof.
  unfold parse_fields.
  destruct item as [| | | | | | |d]; try (simpl; discriminate).
  simpl getitem. destruct (dict_lookup d "bizdate") as [v|] eqn:Hd;
    [|simpl; discriminate].
  cbn [or_raise bind].
  repeat match goal with
         | |- context [bind ?x _] =>
             let E := fresh "E" in destruct x eqn:E; cbn [bind]; try discriminate
         end.
  intro H; inversion H; subst; cbn.
  repeat split; try reflexivity.
  - intro Eq.
    match goal with
    | Hpc : percent_change ?a ?b = Return ?v |- _ =>
        rewrite (percent_change_guard a b v Hpc) by lia
    end.
    reflexivity.
  - exists d. split; [reflexivity | congruence].
Qed.

Lemma data_collector_parse_loop_keeps (B : builtins) (code name : string)
    (items : list pyvalue) :
  forall acc out,
    DataCollector.parse_loop B code name items acc = Return out ->
    exists kept,
      out = acc ++ kept /\
      (length kept <= length items)%nat /\
      Forall (well_formed_record code (Some name)) kept.
Proof.
  induction items as [|item items IH]; intros acc out H; simpl in H.
  - inversion H. exists []. rewrite app_nil_r. repeat split; [simpl; lia | constructor].
  - destruct (DataCollector.parse_item B code name item) as [r|e] eqn:E.
    + apply IH in H as (kept & -> & L & F). exists (r :: kept).
      rewrite <- app_assoc. repeat split; [simpl; lia|].
      constructor; [|exact F].
      apply parse_fields_record in E as (E1 & E2 & E3 & E4 & E5 & _).
      repeat split; assumption.
    + destruct (get_method item "bizdate" (PyStr "unknown")); simpl in H;
        [|discriminate].
      apply IH in H as (kept & -> & L & F). exists kept.
      repeat split; [simpl; lia | exact F].
Qed.

Lemma collector_parse_loop_keeps (B : builtins) (code : string) (items : list pyvalue) :
  forall acc out,
    Collector.parse_loop B code items acc = Return out ->
    exists kept,
      out = acc ++ kept /\
      (length kept <= length items)%nat /\
      Forall (well_formed_record code None) kept.
Proof.
  induction items as [|item items IH]; intros acc out H; simpl in H.
  - inversion H. exists []. rewrite app_nil_r. repeat split; [simpl; lia | constructor].
  - destruct (Collector.parse_item B code item) as [r|e] eqn:E.
    + apply IH in H as (kept & -> & L & F). exists (r :: kept).
      rewrite <- app_assoc. repeat split; [simpl; lia|].
      constructor; [|exact F].
      apply parse_fields_record in E as (E1 & E2 & E3 & E4 & E5 & _).
      repeat split; assumption.
    + apply IH in H as (kept & -> & L & F). exists kept.
      repeat split; [simpl; lia | exact F].
Qed.

(** X12. Whatever a batch holds, a parser that returns gives at most
    one record per item, and every record carries the stock code (and
    name) of the call, [net_institutional_buy = foreigner + organ],
    [supply_demand_balance = net_institutional_buy + individual], and a
    change rate of 0 when the close equals the change (the previous
    close is zero); the division by the previous close never raises
    [ZeroDivisionError]. *)
Theorem emitted_records_are_well_formed :
  forall (B : builtins) (code name : string) (items : list pyvalue),
    (forall out,
        DataCollector.parse_stock_data B code name (PyList items) = Return out ->
        (length out <= length items)%nat /\
        Forall (well_formed_record code (Some name)) out) /\
    (forall out,
        Collector.parse_supply_data B code (PyList items) = Return out ->
        (length out <= length items)%nat /\
        Forall (well_formed_record code None) out) /\
    (forall price_change prev_close : Z,
        percent_change price_change prev_close <> Raise ZeroDivisionError).
Proof.
  intros B code name items. split; [|split].
  - unfold DataCollector.parse_stock_data. intros out H.
    destruct (negb (truthy (PyList items))).
    + inversion H. split; [simpl; lia | constructor].
    + cbn [iterate bind] in H.
      apply data_collector_parse_loop_keeps in H as (kept & -> & L & F).
      split; assumption.
  - unfold Collector.parse_supply_data. intros out H.
    destruct (negb (truthy (PyList items))).
    + inversion H. split; [simpl; lia | constructor].
    + cbn [iterate bind] in H.
      apply collector_parse_loop_keeps in H as (kept & -> & L & F).
      split; assumption.
  - apply percent_change_never_divides_by_zero.
Qed.

Lemma emitted_records_are_well_formed_witness :
  (length [{| stock_code := "005930"; stock_name := None; date := "2024-01-31";
              close_price := 100; price_change := 100;
              change_direction := PyStr ""; change_rate := PyInt 0;
              foreigner_pure_buy := 7; foreigner_hold_ratio := S754_zero false;
              organ_pure_buy := 0; individual_pure_buy := -2;
              accumulated_volume := 0; net_institutional_buy := 7;
              supply_demand_balance := 5 |}]
   <= length [PyDict [("bizdate"%string, PyStr "20240131");
                      ("closePrice"%string, PyStr "100");
                      ("compareToPreviousClosePrice"%string, PyStr "100");
                      ("foreignerPureBuyQuant"%string, PyStr "+7");
                      ("individualPureBuyQuant"%string, PyStr "-2")]])%nat /\
  Forall (well_formed_record "005930" None)
    [{| stock_code := "005930"; stock_name := None; date := "2024-01-31";
        close_price := 100; price_change := 100;
        change_direction := PyStr ""; change_rate := PyInt 0;
        foreigner_pure_buy := 7; foreigner_hold_ratio := S754_zero false;
        organ_pure_buy := 0; individual_pure_buy := -2;
        accumulated_volume := 0; net_institutional_buy := 7;
        supply_demand_balance := 5 |}].
Proof.
  apply (proj1 (proj2 (emitted_records_are_well_formed ascii_builtins "005930" "S"
                         [PyDict [("bizdate"%string, PyStr "20240131");
                                  ("closePrice"%string, PyStr "100");
                                  ("compareToPreviousClosePrice"%string, PyStr "100");
                                  ("foreignerPureBuyQuant"%string, PyStr "+7");
                                  ("individualPureBuyQuant"%string, PyStr "-2")]]))).
  vm_compute. reflexivity.
Defined.

(** ** Number text: formatting and reading back *)

Lemma uint_chars_digits (u : Decimal.uint) :
  Forall (fun c => Text.is_digit c = true) (uint_chars u).
Proof.
  unfold uint_chars. induction u; simpl; constructor; try reflexivity; assumption.
Qed.

Lemma more_digits_digit (c : ascii) (acc : Z) (n : nat) (r : list ascii) :
  Text.is_digit c = true ->
  Text.more_digits acc n (c :: r) = Text.more_digits (10 * acc + Text.digit_value c) (S n) r.
Proof. intro H. cbn [Text.more_digits]. rewrite H. reflexivity. Qed.

Lemma more_digits_uint (u : Decimal.uint) :
  forall (acc : positive) (n : nat),
    Text.more_digits (Zpos acc) n (uint_chars u)
    = (Zpos (Pos.of_uint_acc u acc), (n + length (uint_chars u))%nat, []).
Proof.
  unfold uint_chars.
  induction u as [|u IH|u IH|u IH|u IH|u IH|u IH|u IH|u IH|u IH|u IH];
    intros acc n;
    cbn [NilEmpty.string_of_uint list_ascii_of_string length Pos.of_uint_acc];
    [ cbn; rewrite Nat.add_0_r; reflexivity | .. ];
    rewrite more_digits_digit by reflexivity;
    match goal with
    | |- Text.more_digits ?a _ _ = (Zpos (Pos.of_uint_acc _ ?q), _, _) =>
        replace a with (Zpos q)
          by (match goal with
              | |- context [Text.digit_value ?c] =>
                  let v := eval vm_compute in (Text.digit_value c) in
                  change (Text.digit_value c) with v
              end; lia)
    end;
    rewrite IH; f_equal; f_equal; lia.
Qed.

(** A decimal numeral, with leading zeros or not, is read as its value. *)
Lemma more_digits_uint_from_zero (u : Decimal.uint) :
  forall n : nat,
    Text.more_digits 0 n (uint_chars u)
    = (Z.of_N (Pos.of_uint u), (n + length (uint_chars u))%nat, []).
Proof.
  unfold uint_chars.
  induction u as [|u IH|u IH|u IH|u IH|u IH|u IH|u IH|u IH|u IH|u IH];
    intro n;
    cbn [NilEmpty.string_of_uint list_ascii_of_string length Pos.of_uint];
    [ cbn; rewrite Nat.add_0_r; reflexivity
    | rewrite more_digits_digit by reflexivity;
      change (10 * 0 + Text.digit_value "0") with 0;
      rewrite IH; f_equal; f_equal; lia
    | .. ];
    rewrite more_digits_digit by reflexivity;
    match goal with
    | |- Text.more_digits ?a _ _ = (Z.of_N (N.pos (Pos.of_uint_acc _ ?q)), _, _) =>
        change a with (Zpos q)
    end;
    fold (uint_chars u); rewrite more_digits_uint; unfold uint_chars;
    f_equal; f_equal; lia.
Qed.

Lemma digitpart_uint (u : Decimal.uint) :
  u <> Decimal.Nil ->
  Text.digitpart (uint_chars u)
  = Some (Z.of_N (Pos.of_uint u), length (uint_chars u), []).
Proof.
  intro H.
  pose proof (more_digits_uint_from_zero u 0) as M.
  pose proof (uint_chars_digits u) as D.
  destruct (uint_chars u) as [|c r] eqn:E.
  - destruct u; try contradiction; discriminate E.
  - inversion D as [|? ? Hc _]; subst.
    rewrite more_digits_digit in M by assumption.
    unfold Text.digitpart. rewrite Hc. f_equal. exact M.
Qed.

Lemma lstrip_no_space (l : list ascii) :
  Forall (fun c => Text.is_space c = false) l -> Text.lstrip l = l.
Proof. intros [|c r Hc _]; simpl; [reflexivity | rewrite Hc; reflexivity]. Qed.

Lemma strip_ascii_no_space (l : list ascii) :
  Forall (fun c => Text.is_space c = false) l ->
  Text.strip_ascii (string_of_list_ascii l) = string_of_list_ascii l.
Proof.
  intro H. unfold Text.strip_ascii.
  rewrite list_ascii_of_string_of_list_ascii.
  rewrite (lstrip_no_space l H).
  rewrite lstrip_no_space by (apply Forall_rev; exact H).
  rewrite rev_involutive. reflexivity.
Qed.

Lemma digit_not_space (c : ascii) : Text.is_digit c = true -> Text.is_space c = false.
Proof.
  unfold Text.is_digit, Text.is_space. intro H.
  apply andb_prop in H as [H1 H2]. apply N.leb_le in H1, H2.
  destruct (N.leb_spec 9 (Text.code c)); destruct (N.leb_spec (Text.code c) 13);
    destruct (N.leb_spec 28 (Text.code c)); destruct (N.leb_spec (Text.code c) 32);
    simpl; try reflexivity; lia.
Qed.

Lemma digit_not_sign (c : ascii) :
  Text.is_digit c = true -> Ascii.eqb c "-" = false /\ Ascii.eqb c "+" = false.
Proof.
  intro H. split.
  - destruct (Ascii.eqb_spec c "-") as [->|]; [discriminate H | reflexivity].
  - destruct (Ascii.eqb_spec c "+") as [->|]; [discriminate H | reflexivity].
Qed.

Lemma uint_chars_length (u : Decimal.uint) :
  length (uint_chars u) = String.length (NilEmpty.string_of_uint u).
Proof.
  unfold uint_chars. generalize (NilEmpty.string_of_uint u). intro t.
  induction t as [|c t IH]; simpl; congruence.
Qed.

(** [int(str(p))] for a positive [p]. *)
Lemma parse_int_of_digits (p : positive) :
  Text.parse_int (NilEmpty.string_of_uint (Pos.to_uint p))
  = if (decimal_digits (Zpos p) <=? Text.max_str_digits)%nat then Some (Zpos p) else None.
Proof.
  pose proof (uint_chars_digits (Pos.to_uint p)) as D.
  pose proof (digitpart_uint (Pos.to_uint p) (Unsigned.to_uint_nonnil p)) as P.
  rewrite DecimalPos.Unsigned.of_to in P.
  unfold Text.parse_int.
  rewrite <- (string_of_list_ascii_of_string (NilEmpty.string_of_uint (Pos.to_uint p))).
  fold (uint_chars (Pos.to_uint p)).
  rewrite strip_ascii_no_space
    by (eapply Forall_impl; [|exact D]; exact digit_not_space).
  rewrite list_ascii_of_string_of_list_ascii.
  pose proof (uint_chars_length (Pos.to_uint p)) as L.
  destruct (uint_chars (Pos.to_uint p)) as [|c r] eqn:E; [discriminate P|].
  inversion D as [|? ? Hc _]; subst.
  destruct (digit_not_sign c Hc) as [Hm Hp].
  unfold Text.sign. rewrite Hm, Hp, P, L. reflexivity.
Qed.

Lemma parse_int_of_decimal (z : Z) :
  Text.parse_int (decimal_of_Z z)
  = if (decimal_digits z <=? Text.max_str_digits)%nat then Some z else None.
Proof.
  destruct z as [|p|p]; [reflexivity | apply parse_int_of_digits |].
  pose proof (uint_chars_digits (Pos.to_uint p)) as D.
  pose proof (digitpart_uint (Pos.to_uint p) (Unsigned.to_uint_nonnil p)) as P.
  pose proof (uint_chars_length (Pos.to_uint p)) as L.
  rewrite DecimalPos.Unsigned.of_to in P.
  unfold Text.parse_int, decimal_of_Z.
  rewrite <- (string_of_list_ascii_of_string (NilEmpty.string_of_uint (Pos.to_uint p))).
  fold (uint_chars (Pos.to_uint p)).
  change (String "-" (string_of_list_ascii (uint_chars (Pos.to_uint p))))
    with (string_of_list_ascii ("-"%char :: uint_chars (Pos.to_uint p))).
  rewrite strip_ascii_no_space.
  - rewrite list_ascii_of_string_of_list_ascii.
    unfold Text.sign. simpl Ascii.eqb. cbv iota. rewrite P, L.
    unfold decimal_digits. destruct (_ <=? _)%nat; reflexivity.
  - constructor; [reflexivity|].
    eapply Forall_impl; [|exact D]. exact digit_not_space.
Qed.

Lemma remove_chars_as_filter (class : list ascii) (l : list ascii) :
  Text.remove_chars class (string_of_list_ascii l)
  = string_of_list_ascii (filter (kept class) l).
Proof.
  unfold kept. induction l as [|c l IH]; simpl; [reflexivity|].
  destruct (existsb (Ascii.eqb c) class); simpl; rewrite IH; reflexivity.
Qed.

Lemma filter_all_kept (class : list ascii) (l : list ascii) :
  Forall (fun c => kept class c = true) l -> filter (kept class) l = l.
Proof.
  induction 1 as [|c l Hc _ IH]; simpl; [reflexivity|]. rewrite Hc, IH. reflexivity.
Qed.

Lemma filter_group_rev (class : list ascii) (digits : list ascii) :
  kept class "," = false ->
  Forall (fun c => kept class c = true) digits ->
  forall count, filter (kept class) (group_rev count digits) = digits.
Proof.
  intros Hcomma. induction 1 as [|c l Hc _ IH]; intro count; simpl; [reflexivity|].
  destruct (Nat.eqb count 3); simpl; rewrite ?Hcomma, Hc, IH; reflexivity.
Qed.

Lemma filter_rev_commute {A : Type} (f : A -> bool) (l : list A) :
  filter f (rev l) = rev (filter f l).
Proof.
  induction l as [|x l IH]; simpl; [reflexivity|].
  rewrite filter_app, IH. simpl. destruct (f x); [reflexivity | apply app_nil_r].
Qed.

(** Removing a class that holds the comma and no digit undoes the
    grouping. *)
Lemma remove_chars_group_digits (class : list ascii) (u : Decimal.uint) :
  kept class "," = false ->
  (forall c, Text.is_digit c = true -> kept class c = true) ->
  Text.remove_chars class (group_digits (NilEmpty.string_of_uint u))
  = NilEmpty.string_of_uint u.
Proof.
  intros Hcomma Hdigits. unfold group_digits.
  rewrite remove_chars_as_filter, filter_rev_commute, filter_group_rev.
  - rewrite rev_involutive. apply string_of_list_ascii_of_string.
  - exact Hcomma.
  - apply Forall_rev. eapply Forall_impl; [|apply uint_chars_digits]. exact Hdigits.
Qed.

Lemma remove_chars_format_thousands (class : list ascii) (z : Z) :
  kept class "," = false ->
  kept class "-" = true ->
  (forall c, Text.is_digit c = true -> kept class c = true) ->
  Text.remove_chars class (format_thousands z) = decimal_of_Z z.
Proof.
  intros Hcomma Hminus Hdigits. destruct z as [|p|p]; simpl.
  - rewrite (Hdigits "0"%char eq_refl : negb _ = true) || idtac.
    specialize (Hdigits "0"%char eq_refl). unfold kept in Hdigits.
    destruct (existsb (Ascii.eqb "0") class); [discriminate Hdigits | reflexivity].
  - apply remove_chars_group_digits; assumption.
  - unfold kept in Hminus.
    destruct (existsb (Ascii.eqb "-") class); [discriminate Hminus|].
    f_equal. apply remove_chars_group_digits; assumption.
Qed.

Lemma digits_kept (class : list ascii) :
  forallb (fun k => negb (Text.is_digit k)) class = true ->
  forall c, Text.is_digit c = true -> kept class c = true.
Proof.
  intros H c Hc. unfold kept. apply negb_true_iff.
  induction class as [|k class IH]; simpl in *; [reflexivity|].
  apply andb_prop in H as [Hk Hrest].
  destruct (Ascii.eqb_spec c k) as [->|_]; simpl.
  - rewrite Hc in Hk. discriminate Hk.
  - apply IH. exact Hrest.
Qed.

Lemma strip_ascii_decimal (z : Z) : Text.strip_ascii (decimal_of_Z z) = decimal_of_Z z.
Proof.
  assert (D : forall p, Forall (fun c => Text.is_space c = false)
                          (uint_chars (Pos.to_uint p))).
  { intro p. eapply Forall_impl; [|apply uint_chars_digits]. exact digit_not_space. }
  destruct z as [|p|p]; [reflexivity | |]; unfold decimal_of_Z.
  - rewrite <- (string_of_list_ascii_of_string (NilEmpty.string_of_uint (Pos.to_uint p))).
    apply strip_ascii_no_space. apply D.
  - rewrite <- (string_of_list_ascii_of_string (NilEmpty.string_of_uint (Pos.to_uint p))).
    change (String "-" (string_of_list_ascii ?l))
      with (string_of_list_ascii ("-"%char :: l)).
    apply strip_ascii_no_space. constructor; [reflexivity | apply D].
Qed.

Lemma digits_start (p : positive) :
  exists c r, NilEmpty.string_of_uint (Pos.to_uint p) = String c r /\ Text.is_digit c = true.
Proof.
  pose proof (uint_chars_digits (Pos.to_uint p)) as D. unfold uint_chars in D.
  destruct (NilEmpty.string_of_uint (Pos.to_uint p)) as [|c r] eqn:E.
  - pose proof (Unsigned.to_uint_nonnil p) as N.
    destruct (Pos.to_uint p); try contradiction; discriminate E.
  - simpl in D. inversion D; subst. exists c, r. split; [reflexivity | assumption].
Qed.

Lemma remove_chars_digits (class : list ascii) (u : Decimal.uint) :
  (forall c, Text.is_digit c = true -> kept class c = true) ->
  Text.remove_chars class (NilEmpty.string_of_uint u) = NilEmpty.string_of_uint u.
Proof.
  intro H.
  rewrite <- (string_of_list_ascii_of_string (NilEmpty.string_of_uint u)) at 1.
  rewrite remove_chars_as_filter, filter_all_kept.
  - apply string_of_list_ascii_of_string.
  - eapply Forall_impl; [|apply uint_chars_digits]. exact H.
Qed.

Lemma decimal_starts (z : Z) :
  exists c r, decimal_of_Z z = String c r /\ (Text.is_digit c = true \/ c = "-"%char).
Proof.
  destruct z as [|p|p].
  - exists "0"%char, EmptyString. split; [reflexivity | left; reflexivity].
  - destruct (digits_start p) as (c & r & E & Hc). exists c, r. split; [exact E | left; exact Hc].
  - eexists _, _. split; [reflexivity | right; reflexivity].
Qed.

Lemma decimal_not_blank (z : Z) :
  decimal_of_Z z <> ""%string /\ decimal_of_Z z <> "N/A"%string.
Proof.
  destruct (decimal_starts z) as (c & r & -> & [H | ->]); split; try discriminate.
  intro E. inversion E; subst. vm_compute in H. discriminate H.
Qed.

Lemma within_limit_cases (z : Z) :
  ((decimal_digits z <= Text.max_str_digits)%nat -> within_limit z = z) /\
  ((Text.max_str_digits < decimal_digits z)%nat -> within_limit z = 0).
Proof.
  unfold within_limit.
  destruct (Nat.leb_spec (decimal_digits z) Text.max_str_digits); split; intro; lia.
Qed.

(** The normalizers on the text that [str()] gives for an integer. *)
Lemma collector_reads_decimal (z : Z) (text : string) :
  Text.remove_chars ["+"; ","; "%"]%char text = decimal_of_Z z ->
  Collector.parse_numeric_string ascii_builtins (PyStr text) = Return (within_limit z).
Proof.
  intro H. unfold Collector.parse_numeric_string.
  destruct (decimal_not_blank z) as [N1 N2].
  simpl truthy. unfold equals_text.
  destruct (String.eqb_spec text "") as [E|_];
    [exfalso; apply N1; rewrite <- H, E; reflexivity|].
  destruct (String.eqb_spec text "N/A") as [E|_];
    [exfalso; apply N2; rewrite <- H, E; reflexivity|].
  simpl negb. simpl orb. cbv iota.
  cbn [py_str bind str_strip ascii_builtins int_of_str]. rewrite H, strip_ascii_decimal.
  destruct (String.eqb_spec (decimal_of_Z z) "") as [E|_]; [contradiction|].
  unfold within_limit.
  destruct z as [|p|p].
  - reflexivity.
  - unfold decimal_of_Z. destruct (digits_start p) as (c & r & E & Hc).
    rewrite E. unfold Text.starts_with_minus.
    destruct (digit_not_sign c Hc) as [-> _]. rewrite <- E.
    rewrite remove_chars_digits by (apply digits_kept; reflexivity).
    rewrite parse_int_of_digits.
    destruct (_ <=? _)%nat; reflexivity.
  - unfold decimal_of_Z, Text.starts_with_minus, Text.drop_first.
    simpl Ascii.eqb. cbv iota.
    rewrite remove_chars_digits by (apply digits_kept; reflexivity).
    rewrite parse_int_of_digits.
    change (decimal_digits (Z.neg p)) with (decimal_digits (Z.pos p)).
    destruct (_ <=? _)%nat; reflexivity.
Qed.

Lemma data_collector_reads_decimal (z : Z) (text : string) :
  Text.remove_chars ["+"; ","]%char text = decimal_of_Z z ->
  DataCollector.safe_int_convert ascii_builtins (PyStr text) = Return (within_limit z).
Proof.
  intro H. cbn [DataCollector.safe_int_convert ascii_builtins int_of_str].
  rewrite H, parse_int_of_decimal. unfold within_limit.
  destruct (_ <=? _)%nat; reflexivity.
Qed.

Lemma normalizers_read_grouped_text (z : Z) :
  DataCollector.safe_int_convert ascii_builtins (PyStr (format_thousands z))
  = Return (within_limit z) /\
  Collector.parse_numeric_string ascii_builtins (PyStr (format_thousands z))
  = Return (within_limit z).
Proof.
  split.
  - apply data_collector_reads_decimal. apply remove_chars_format_thousands;
      [reflexivity | reflexivity | apply digits_kept; reflexivity].
  - apply collector_reads_decimal. apply remove_chars_format_thousands;
      [reflexivity | reflexivity | apply digits_kept; reflexivity].
Qed.

(** X13. The decimal text of an integer with thousands separators
    ([1,234,567], [-1,234]) is read back as that integer by both
    integer normalizers, as long as the integer has no more digits than
    [int()] converts (4300); beyond that [int()] raises [ValueError]
    inside the handlers and both give 0. *)
Theorem grouped_integers_are_read_back :
  forall z : Z,
    ((decimal_digits z <= Text.max_str_digits)%nat ->
     DataCollector.safe_int_convert ascii_builtins (PyStr (format_thousands z)) = Return z /\
     Collector.parse_numeric_string ascii_builtins (PyStr (format_thousands z))
     = Return z) /\
    ((Text.max_str_digits < decimal_digits z)%nat ->
     DataCollector.safe_int_convert ascii_builtins (PyStr (format_thousands z)) = Return 0 /\
     Collector.parse_numeric_string ascii_builtins (PyStr (format_thousands z))
     = Return 0).
Proof.
  intro z. destruct (within_limit_cases z) as [W1 W2].
  pose proof (normalizers_read_grouped_text z) as N.
  split; intro H; [rewrite (W1 H) in N | rewrite (W2 H) in N]; exact N.
Qed.

Lemma grouped_integers_are_read_back_witness :
  DataCollector.safe_int_convert ascii_builtins (PyStr (format_thousands (-1234567)))
  = Return (-1234567) /\
  Collector.parse_numeric_string ascii_builtins (PyStr (format_thousands (-1234567)))
  = Return (-1234567).
Proof.
  apply (proj1 (grouped_integers_are_read_back (-1234567))).
  apply Nat.leb_le. vm_compute. reflexivity.
Defined.

Lemma safe_format_number_cases (B : builtins) (value : pyvalue) :
  Analysis.safe_format_number B value = Return "0"%string \/
  (exists num,
      (decimal_digits num <= Text.max_str_digits)%nat /\
      Analysis.safe_format_number B value = Return (format_thousands num)) \/
  Analysis.safe_format_number B value = Raise OverflowError.
Proof.
  assert (G : forall t : result string,
             let r := except_value_or_type_error
                        (text <- t ;;
                         x <- or_raise ValueError (float_of_str B text) ;;
                         num <- F64.to_int x ;;
                         format_grouped num)
                        (Return "0"%string) in
             (forall e, t = Raise e -> e = ValueError \/ e = UnicodeDecodeError) ->
             r = Return "0"%string \/
             (exists num, (decimal_digits num <= Text.max_str_digits)%nat /\
                          r = Return (format_thousands num)) \/
             r = Raise OverflowError).
  { intros t r Ht. subst r. destruct t as [text|e]; cbn [bind].
    - destruct (float_of_str B text) as [[sg|sg| |sg m e]|]; cbn [or_raise bind F64.to_int];
        try (left; reflexivity); try (right; right; reflexivity).
      unfold format_grouped.
      destruct (Nat.leb_spec (decimal_digits (cond_Zopp sg (F64.magnitude_floor m e)))
                  Text.max_str_digits) as [L|L].
      + right. left. eexists. split; [exact L | reflexivity].
      + left. reflexivity.
    - destruct (Ht e eq_refl) as [-> | ->]; left; reflexivity. }
  unfold Analysis.safe_format_number.
  destruct value as [|b|z|x|b|s|l|d]; try (left; reflexivity); apply G;
    intros e He;
    try (unfold py_str in He; destruct (repr B _); simpl in He;
         [discriminate He | injection He as <-; left; reflexivity]).
  - destruct (Text.decode_utf8 b); simpl in He;
      [discriminate He | injection He as <-; right; reflexivity].
  - discriminate He.
Qed.

(** X14. Whatever [safe_format_number] returns is the grouped text of
    an integer ([0] for the fallback), and both integer normalizers
    read that integer back from it. *)
Theorem formatted_numbers_are_read_back :
  forall (B : builtins) (value : pyvalue) (text : string),
    Analysis.safe_format_number B value = Return text ->
    exists num : Z,
      text = format_thousands num /\
      DataCollector.safe_int_convert ascii_builtins (PyStr text) = Return num /\
      Collector.parse_numeric_string ascii_builtins (PyStr text) = Return num.
Proof.
  intros B value text H.
  assert (G : exists num, (decimal_digits num <= Text.max_str_digits)%nat /\
                          text = format_thousands num).
  { destruct (safe_format_number_cases B value) as [E|[(num & L & E)|E]];
      rewrite E in H; inversion H.
    - exists 0. split; [vm_compute; lia | reflexivity].
    - exists num. split; [exact L | reflexivity]. }
  destruct G as (num & L & ->). exists num. split; [reflexivity|].
  pose proof (normalizers_read_grouped_text num) as N.
  rewrite (proj1 (within_limit_cases num) L) in N. exact N.
Qed.

Lemma formatted_numbers_are_read_back_witness :
  exists num : Z,
    "1,234"%string = format_thousands num /\
    DataCollector.safe_int_convert ascii_builtins (PyStr "1,234") = Return num /\
    Collector.parse_numeric_string ascii_builtins (PyStr "1,234") = Return num.
Proof.
  apply (formatted_numbers_are_read_back ascii_builtins (PyStr "1234.9") "1,234"%string).
  vm_compute. reflexivity.
Defined.

Lemma remove_chars_decimal (z : Z) :
  Text.remove_chars ["+"; ","; "%"]%char (decimal_of_Z z) = decimal_of_Z z.
Proof.
  destruct z as [|p|p]; [reflexivity | |]; unfold decimal_of_Z.
  - apply remove_chars_digits. apply digits_kept. reflexivity.
  - simpl. f_equal. apply remove_chars_digits. apply digits_kept. reflexivity.
Qed.

(** X15. [parse_numeric_string] given an integer instead of text (the
    default [0] of the call sites, or a JSON number) returns it
    unchanged when it has no more digits than the interpreter converts
    (4300): [str()], the removal of symbols, the sign branch and
    [int()] undo one another.  Beyond that limit [str(value_str)],
    which stands before the [try], raises [ValueError]. *)
Theorem parse_numeric_string_of_integer :
  forall z : Z,
    ((decimal_digits z <= Text.max_str_digits)%nat ->
     Collector.parse_numeric_string ascii_builtins (PyInt z) = Return z) /\
    ((Text.max_str_digits < decimal_digits z)%nat ->
     Collector.parse_numeric_string ascii_builtins (PyInt z) = Raise ValueError).
Proof.
  intro z.
  destruct (Z.eq_dec z 0) as [->|Hz];
    [split; [reflexivity | intro H; vm_compute in H; lia]|].
  pose proof (collector_reads_decimal z (decimal_of_Z z) (remove_chars_decimal z)) as C.
  destruct (decimal_not_blank z) as [N1 N2].
  unfold Collector.parse_numeric_string in *.
  assert (T : truthy (PyInt z) = true)
    by (simpl; destruct (Z.eqb_spec z 0); [contradiction | reflexivity]).
  rewrite T. simpl truthy in C. unfold equals_text in C.
  destruct (String.eqb_spec (decimal_of_Z z) "") as [E|_]; [contradiction|].
  destruct (String.eqb_spec (decimal_of_Z z) "N/A") as [E|_]; [contradiction|].
  simpl negb in *. simpl orb in *. cbv iota in *.
  cbn [py_str repr ascii_builtins or_raise bind] in *.
  destruct (within_limit_cases z) as [W1 W2].
  split; intro H.
  - destruct (Nat.leb_spec (decimal_digits z) Text.max_str_digits) as [_|L]; [|lia].
    cbn [or_raise bind]. rewrite (W1 H) in C. exact C.
  - destruct (Nat.leb_spec (decimal_digits z) Text.max_str_digits) as [L|_]; [lia|].
    reflexivity.
Qed.

Lemma parse_numeric_string_of_integer_witness :
  Collector.parse_numeric_string ascii_builtins (PyInt (-1234567)) = Return (-1234567).
Proof.
  apply (proj1 (parse_numeric_string_of_integer (-1234567))).
  apply Nat.leb_le. vm_compute. reflexivity.
Defined.

(** X16. [safe_format_number] catches [ValueError] and [TypeError]
    only: text that reads as an infinity ([inf], [1e999]) makes
    [int(float(...))] raise [OverflowError], which escapes; no other
    exception does, and text that does not parse, text that reads as
    NaN and bytes that do not decode give ['0']. *)
Theorem safe_format_number_lets_overflow_through :
  (forall (B : builtins) (value : pyvalue) (e : exn),
      Analysis.safe_format_number B value = Raise e -> e = OverflowError) /\
  (forall (B : builtins) (s : string) (sg : bool),
      float_of_str B s = Some (S754_infinity sg) ->
      Analysis.safe_format_number B (PyStr s) = Raise OverflowError) /\
  (forall (B : builtins) (s : string),
      float_of_str B s = None \/ float_of_str B s = Some S754_nan ->
      Analysis.safe_format_number B (PyStr s) = Return "0"%string) /\
  (forall (B : builtins) (b : string),
      Text.decode_utf8 b = None ->
      Analysis.safe_format_number B (PyBytes b) = Return "0"%string).
Proof.
  split; [|split; [|split]].
  - intros B value e H.
    destruct (safe_format_number_cases B value) as [E|[(num & _ & E)|E]];
      rewrite E in H; inversion H. reflexivity.
  - intros B s sg H. unfold Analysis.safe_format_number.
    cbn [py_str bind]. rewrite H. reflexivity.
  - intros B s [H|H]; unfold Analysis.safe_format_number;
      cbn [py_str bind]; rewrite H; reflexivity.
  - intros B b H. unfold Analysis.safe_format_number. rewrite H. reflexivity.
Qed.

Lemma safe_format_number_lets_overflow_through_witness :
  Analysis.safe_format_number ascii_builtins (PyStr "1e999") = Raise OverflowError /\
  Analysis.safe_format_number ascii_builtins (PyStr "n/a") = Return "0"%string.
Proof.
  split.
  - apply (proj1 (proj2 safe_format_number_lets_overflow_through)
             ascii_builtins "1e999"%string false).
    vm_compute. reflexivity.
  - apply (proj1 (proj2 (proj2 safe_format_number_lets_overflow_through))
             ascii_builtins "n/a"%string).
    left. vm_compute. reflexivity.
Defined.

(** ** Storing: [save_stock_data] *)

Lemma same_key_iff (a b : Analysis.supply_row) :
  Store.same_key a b = true <-> Store.row_key a = Store.row_key b.
Proof.
  unfold Store.same_key.
  destruct (Analysis.key_eq_dec (Store.row_key a) (Store.row_key b)); intuition congruence.
Qed.


Lemma has_key_iff (key : string * string) (r : Analysis.supply_row) :
  has_key key r = true <-> Store.row_key r = key.
Proof.
  unfold has_key. destruct (Analysis.key_eq_dec (Store.row_key r) key);
    intuition congruence.
Qed.

(** The loop is a left fold of [INSERT OR REPLACE] over the rows that
    bind; [saved_count] counts them. *)
Lemma save_loop_fold (batch : list flow_record) :
  forall (table : list Analysis.supply_row) (n : nat),
    Store.save_loop table batch n
    = (fold_left Store.insert_or_replace (rows_of batch) table,
       (n + length (rows_of batch))%nat).
Proof.
  induction batch as [|data rest IH]; intros table n; simpl.
  - rewrite Nat.add_0_r. reflexivity.
  - destruct (Store.to_row data) as [row|]; simpl.
    + rewrite IH. f_equal. lia.
    + apply IH.
Qed.

Lemma save_stock_data_fold (table : list Analysis.supply_row) (batch : list flow_record) :
  Store.save_stock_data table batch
  = fold_left Store.insert_or_replace (rows_of batch) table.
Proof.
  unfold Store.save_stock_data. destruct batch as [|d rest]; [reflexivity|].
  rewrite save_loop_fold. reflexivity.
Qed.

Lemma in_insert_or_replace (table : list Analysis.supply_row) (row r : Analysis.supply_row) :
  In r (Store.insert_or_replace table row)
  <-> r = row \/ (In r table /\ Store.row_key r <> Store.row_key row).
Proof.
  unfold Store.insert_or_replace. rewrite in_app_iff, filter_In. simpl.
  rewrite negb_true_iff, <- not_true_iff_false, same_key_iff.
  intuition congruence.
Qed.

Lemma insert_or_replace_keys_unique (table : list Analysis.supply_row)
    (row : Analysis.supply_row) :
  keys_unique table -> keys_unique (Store.insert_or_replace table row).
Proof.
  unfold keys_unique, Store.insert_or_replace. intro H.
  rewrite map_app. simpl.
  assert (F : NoDup (map Store.row_key
                       (filter (fun r => negb (Store.same_key r row)) table))).
  { induction table as [|x t IH]; simpl; [constructor|].
    inversion H as [|? ? Hx Ht]; subst.
    destruct (negb (Store.same_key x row)); simpl; [|apply IH; assumption].
    constructor; [|apply IH; assumption].
    intro Hin. apply Hx. apply in_map_iff in Hin as (y & E & Hy).
    apply filter_In in Hy as [Hy _]. apply in_map_iff. exists y. split; assumption. }
  apply NoDup_app; [exact F | constructor; [intros []|constructor] |].
  intros k Hk [<-|[]].
  apply in_map_iff in Hk as (y & E & Hy). apply filter_In in Hy as [_ Hy].
  rewrite negb_true_iff, <- not_true_iff_false, same_key_iff in Hy. congruence.
Qed.

Lemma fold_insert_keys_unique (rows : list Analysis.supply_row) :
  forall table : list Analysis.supply_row,
    keys_unique table -> keys_unique (fold_left Store.insert_or_replace rows table).
Proof.
  induction rows as [|r rows IH]; intros table H; simpl; [exact H|].
  apply IH. apply insert_or_replace_keys_unique. exact H.
Qed.

(** X17. [save_stock_data] keeps the table's constraint: when no two
    rows share a code and a date before the call, none do after it,
    whatever the batch holds (repeated dates, records that fail to
    bind). *)
Theorem save_stock_data_keeps_keys_unique :
  forall (table : list Analysis.supply_row) (batch : list flow_record),
    keys_unique table -> keys_unique (Store.save_stock_data table batch).
Proof.
  intros table batch. rewrite save_stock_data_fold. apply fold_insert_keys_unique.
Qed.

Lemma save_stock_data_keeps_keys_unique_witness :
  keys_unique
    (Store.save_stock_data [example_row "2024-01-31" 7]
       [example_record (Some "S"%string) "2024-01-31" 9;
        example_record (Some "S"%string) "2024-01-31" 11]).
Proof.
  apply (save_stock_data_keeps_keys_unique [example_row "2024-01-31" 7]).
  constructor; [intros [] | constructor].
Defined.

Lemma find_app_first {A : Type} (f : A -> bool) (l1 l2 : list A) :
  find f (l1 ++ l2) = match find f l1 with Some x => Some x | None => find f l2 end.
Proof.
  induction l1 as [|x l1 IH]; simpl; [reflexivity|].
  destruct (f x); [reflexivity | exact IH].
Qed.

Lemma in_fold_insert (rows : list Analysis.supply_row) :
  forall (table : list Analysis.supply_row) (r : Analysis.supply_row),
    In r (fold_left Store.insert_or_replace rows table)
    <-> find (has_key (Store.row_key r)) (rev rows) = Some r
        \/ (find (has_key (Store.row_key r)) (rev rows) = None /\ In r table).
Proof.
  induction rows as [|row rows IH]; intros table r; cbn [fold_left rev].
  - simpl. intuition discriminate.
  - rewrite IH, find_app_first, in_insert_or_replace. cbn [find].
    destruct (find _ (rev rows)) as [x|].
    + intuition discriminate.
    + destruct (has_key (Store.row_key r) row) eqn:K.
      * apply has_key_iff in K. split.
        -- intros [H|[_ [->|[_ H]]]]; [discriminate| left; reflexivity | congruence].
        -- intros [H|[H _]]; [|discriminate]. right. split; [reflexivity|].
           left. congruence.
      * apply not_true_iff_false in K. rewrite has_key_iff in K. split.
        -- intros [H|[_ [->|[H _]]]]; [discriminate | congruence | right; split; auto].
        -- intros [H|[_ H]]; [discriminate|]. right. split; [reflexivity|].
           right. split; [assumption | congruence].
Qed.

(** X18. After [save_stock_data] a row is in the table exactly when it
    is the last row the batch wrote under its code and date, or the
    batch wrote nothing under that key and the row was there before:
    the last write wins and other keys are left alone. *)
Theorem save_stock_data_last_write_wins :
  forall (table : list Analysis.supply_row) (batch : list flow_record)
         (r : Analysis.supply_row),
    In r (Store.save_stock_data table batch)
    <-> last_written batch (Store.row_key r) = Some r
        \/ (last_written batch (Store.row_key r) = None /\ In r table).
Proof.
  intros table batch r. rewrite save_stock_data_fold. apply in_fold_insert.
Qed.







Lemma rows_of_app (b1 b2 : list flow_record) :
  rows_of (b1 ++ b2) = rows_of b1 ++ rows_of b2.
Proof. apply flat_map_app. Qed.

(** X20. A record that [cursor.execute] refuses (no ['stock_name'], a
    price or quantity beyond 64 bits, a direction that is a list or a
    dict) is skipped by the handler inside the loop: the table ends as
    if the record had not been in the batch, and the records after it
    are still written. *)
Theorem unstorable_records_are_skipped :
  forall (table : list Analysis.supply_row) (before after : list flow_record)
         (bad : flow_record),
    stock_name bad = None \/
    Store.in_int64 (close_price bad) = false \/
    Store.in_int64 (foreigner_pure_buy bad) = false \/
    Store.bindable (change_direction bad) = false ->
    Store.save_stock_data table (before ++ bad :: after)
    = Store.save_stock_data table (before ++ after).
Proof.
  intros table before after bad H.
  rewrite !save_stock_data_fold, !rows_of_app. do 2 f_equal.
  change (bad :: after) with ([bad] ++ after). rewrite rows_of_app.
  assert (E : Store.to_row bad = None).
  { unfold Store.to_row. destruct (stock_name bad); [|reflexivity].
    destruct H as [H|[H|[H|H]]]; [discriminate| | |]; rewrite H;
      rewrite ?andb_false_r; reflexivity. }
  simpl. rewrite E. reflexivity.
Qed.

Lemma unstorable_records_are_skipped_witness :
  Store.save_stock_data []
    ([example_record (Some "S"%string) "2024-01-30" 9]
       ++ example_record (Some "S"%string) "2024-01-31" (2 ^ 63)
       :: [example_record (Some "S"%string) "2024-02-01" 11])
  = Store.save_stock_data []
      ([example_record (Some "S"%string) "2024-01-30" 9]
         ++ [example_record (Some "S"%string) "2024-02-01" 11]).
Proof.
  apply (unstorable_records_are_skipped []
           [example_record (Some "S"%string) "2024-01-30" 9]
           [example_record (Some "S"%string) "2024-02-01" 11]
           (example_record (Some "S"%string) "2024-01-31" (2 ^ 63))).
  right. right. left. reflexivity.
Defined.

(** ** Reading back: [get_recent_data] *)

Lemma string_leb_trans (s1 : string) :
  forall s2 s3 : string,
    String.leb s1 s2 = true -> String.leb s2 s3 = true -> String.leb s1 s3 = true.
Proof.
  unfold String.leb.
  induction s1 as [|c1 s1 IH]; intros [|c2 s2] [|c3 s3]; simpl; try congruence.
  unfold Ascii.compare.
  destruct (N.compare_spec (N_of_ascii c1) (N_of_ascii c2)) as [E12|L12|G12];
    destruct (N.compare_spec (N_of_ascii c2) (N_of_ascii c3)) as [E23|L23|G23];
    destruct (N.compare_spec (N_of_ascii c1) (N_of_ascii c3)) as [E13|L13|G13];
    try lia; try congruence.
  apply IH.
Qed.

Section OrderByTotal.

Context {A : Type} (geb : A -> A -> bool).
Hypothesis geb_total : forall a b, geb a b = true \/ geb b a = true.
Hypothesis geb_trans : forall a b c, geb a b = true -> geb b c = true -> geb a c = true.

Lemma insert_desc_total_sorted (x : A) (l : list A) :
  StronglySorted (fun a b => geb a b = true) l ->
  StronglySorted (fun a b => geb a b = true) (Analysis.insert_desc geb x l).
Proof.
  induction 1 as [|y l Hl IH Hy]; simpl.
  - constructor; constructor.
  - destruct (geb x y) eqn:G.
    + constructor; [constructor; assumption|].
      constructor; [assumption|].
      rewrite Forall_forall in *. intros z Hz. apply geb_trans with y; auto.
    + constructor; [assumption|].
      rewrite Forall_forall in *. intros z Hz.
      apply in_insert_desc in Hz as [->|Hz]; [|apply Hy; assumption].
      destruct (geb_total x y); congruence.
Qed.

Lemma order_by_desc_total_sorted (l : list A) :
  StronglySorted (fun a b => geb a b = true) (Analysis.order_by_desc geb l).
Proof.
  induction l as [|x l IH]; simpl; [constructor|].
  apply insert_desc_total_sorted. exact IH.
Qed.

End OrderByTotal.

Lemma insert_desc_permutation {A : Type} (g : A -> A -> bool) (x : A) (l : list A) :
  Permutation (x :: l) (Analysis.insert_desc g x l).
Proof.
  induction l as [|y l IH]; simpl; [reflexivity|].
  destruct (g x y); [reflexivity|].
  rewrite perm_swap. constructor. exact IH.
Qed.

Lemma order_by_desc_permutation {A : Type} (g : A -> A -> bool) (l : list A) :
  Permutation l (Analysis.order_by_desc g l).
Proof.
  induction l as [|x l IH]; simpl; [constructor|].
  rewrite <- insert_desc_permutation. constructor. exact IH.
Qed.

Lemma strongly_sorted_firstn {A : Type} (R : A -> A -> Prop) (n : nat) (l : list A) :
  StronglySorted R l -> StronglySorted R (firstn n l).
Proof.
  intro H. revert n. induction H as [|x l Hl IH Hx]; intros [|n]; simpl;
    try constructor; [apply IH|].
  apply Forall_firstn_keeps. exact Hx.
Qed.

Lemma strongly_sorted_app {A : Type} (R : A -> A -> Prop) (l1 l2 : list A) :
  StronglySorted R (l1 ++ l2) ->
  forall a b, In a l1 -> In b l2 -> R a b.
Proof.
  induction l1 as [|x l1 IH]; simpl; intros H a b Ha Hb; [contradiction|].
  inversion H as [|? ? Hl Hx]; subst.
  destruct Ha as [->|Ha]; [|apply IH; assumption].
  rewrite Forall_forall in Hx. apply Hx. apply in_or_app. right. exact Hb.
Qed.

Lemma strongly_sorted_distinct {A K : Type} (R : A -> A -> Prop) (f : A -> K)
    (l : list A) :
  StronglySorted R l -> NoDup (map f l) ->
  StronglySorted (fun a b => R a b /\ f a <> f b) l.
Proof.
  induction 1 as [|x l Hl IH Hx]; simpl; intro N; [constructor|].
  inversion N as [|? ? Nx Nl]; subst.
  constructor; [apply IH; exact Nl|].
  rewrite Forall_forall in *. intros y Hy. split; [apply Hx; exact Hy|].
  intro E. apply Nx. rewrite E. apply in_map. exact Hy.
Qed.

(** Under the key constraint the rows of one code have distinct dates. *)
Lemma dates_of_code_unique (table : list Analysis.supply_row) (code : string) :
  keys_unique table -> NoDup (map Analysis.row_date (rows_on_file table code)).
Proof.
  unfold keys_unique, rows_on_file.
  induction table as [|x t IH]; simpl; intro H; [constructor|].
  inversion H as [|? ? Hx Ht]; subst.
  destruct (String.eqb_spec (Analysis.row_code x) code) as [E|E]; simpl;
    [|apply IH; exact Ht].
  constructor; [|apply IH; exact Ht].
  intro Hin. apply Hx. apply in_map_iff in Hin as (y & Ey & Hy).
  apply filter_In in Hy as [Hy Hc]. apply String.eqb_eq in Hc.
  apply in_map_iff. exists y. split; [|exact Hy].
  unfold Store.row_key. congruence.
Qed.

(** X21. On a table that keeps the key constraint, [get_recent_data]
    with a code returns that code's latest rows: [min(days, rows on
    file)] of them, each a stored row of the code, in strictly
    descending date order, and every row of the code that is left out
    is dated strictly before every row returned. *)
Theorem get_recent_data_gives_latest_rows :
  forall (table : list Analysis.supply_row) (code : string) (days : nat),
    keys_unique table ->
    code <> ""%string ->
    let rows := Analysis.get_recent_data table code days in
    length rows = Nat.min days (length (rows_on_file table code)) /\
    (forall r, In r rows -> In r (rows_on_file table code)) /\
    StronglySorted later rows /\
    (forall r r', In r rows -> In r' (rows_on_file table code) -> ~ In r' rows ->
                  later r r').
Proof.
  intros table code days U Hcode rows.
  assert (Erows : rows = firstn days
            (Analysis.order_by_desc
               (fun a b => String.leb (Analysis.row_date b) (Analysis.row_date a))
               (rows_on_file table code))).
  { unfold rows, Analysis.get_recent_data.
    destruct (String.eqb_spec code ""); [contradiction | reflexivity]. }
  clearbody rows. subst rows.
  set (by_date := fun a b : Analysis.supply_row =>
                    String.leb (Analysis.row_date b) (Analysis.row_date a)).
  set (sorted := Analysis.order_by_desc by_date (rows_on_file table code)).
  pose proof (order_by_desc_permutation by_date (rows_on_file table code)) as P.
  fold sorted in P.
  assert (S : StronglySorted later sorted).
  { apply (strongly_sorted_distinct (fun a b => by_date a b = true) Analysis.row_date).
    - apply order_by_desc_total_sorted.
      + intros a b. apply String.leb_total.
      + intros a b c H1 H2. unfold by_date in *.
        apply string_leb_trans with (Analysis.row_date b); assumption.
    - apply (Permutation_NoDup (Permutation_map Analysis.row_date P)).
      apply dates_of_code_unique. exact U. }
  split; [|split; [|split]].
  - rewrite length_firstn. rewrite (Permutation_length P). reflexivity.
  - intros r Hr. apply (Permutation_in r (Permutation_sym P)).
    rewrite <- (firstn_skipn days sorted). apply in_or_app. left. exact Hr.
  - apply strongly_sorted_firstn. exact S.
  - intros r r' Hr Hr' Hn.
    rewrite <- (firstn_skipn days sorted) in S.
    apply (strongly_sorted_app later _ _ S); [exact Hr|].
    apply (Permutation_in r' P) in Hr'.
    rewrite <- (firstn_skipn days sorted) in Hr'.
    apply in_app_or in Hr' as [H|H]; [contradiction | exact H].
Qed.

Lemma get_recent_data_gives_latest_rows_witness :
  Analysis.get_recent_data
    [example_row "2024-01-30" 7; example_row "2024-02-01" 9; example_row "2024-01-31" 8]
    "005930" 2
  = [example_row "2024-02-01" 9; example_row "2024-01-31" 8] /\
  StronglySorted later
    (Analysis.get_recent_data
       [example_row "2024-01-30" 7; example_row "2024-02-01" 9;
        example_row "2024-01-31" 8]
       "005930" 2).
Proof.
  split; [reflexivity|].
  apply (get_recent_data_gives_latest_rows
           [example_row "2024-01-30" 7; example_row "2024-02-01" 9;
            example_row "2024-01-31" 8]
           "005930"%string 2%nat).
  - repeat constructor; simpl; intuition discriminate.
  - discriminate.
Defined.

(** ** Streak and label together *)

Lemma leading_run_prefix (s : Z) (l : list Z) :
  forall k : nat,
    (k <= StreakSpec.leading_run s l)%nat
    <-> (k <= length l)%nat /\ Forall (fun x => Z.sgn x = s) (firstn k l).
Proof.
  induction l as [|x l IH]; intros [|k]; simpl.
  - intuition.
  - split; [lia | intros [H _]; lia].
  - split; [intros _; split; [lia | constructor] | lia].
  - destruct (Z.eqb_spec (Z.sgn x) s) as [E|E].
    + rewrite <- Nat.succ_le_mono, IH, <- Nat.succ_le_mono. split.
      * intros [H1 H2]. split; [exact H1 | constructor; assumption].
      * intros [H1 H2]. inversion H2; subst. split; assumption.
    + split; [lia|]. intros [_ H]. inversion H; subst. contradiction.
Qed.

Lemma continuous_days_at_least (data : list Z) (k : nat) :
  (1 <= k)%nat ->
  (Z.of_nat k <= Collector.calculate_continuous_days data
   <-> (k <= StreakSpec.leading_run 1 data)%nat) /\
  (Collector.calculate_continuous_days data <= - Z.of_nat k
   <-> (k <= StreakSpec.leading_run (-1) data)%nat).
Proof.
  intro Hk. destruct data as [|x rest]; [simpl; lia|].
  rewrite continuous_days_value. cbn [StreakSpec.leading_run].
  destruct (Z.sgn_spec x) as [[_ S]|[[_ S]|[_ S]]]; rewrite S;
    change (- (1)) with (-1);
    match goal with
    | |- context [?a =? 1] =>
        destruct (Z.eqb_spec a 1); destruct (Z.eqb_spec a (-1)); lia
    end.
Qed.

Lemma continuous_days_abs_le (data : list Z) :
  Z.abs (Collector.calculate_continuous_days data) <= Z.of_nat (length data).
Proof.
  destruct data as [|x rest]; [reflexivity|].
  rewrite continuous_days_value.
  pose proof (leading_run_le_length (Z.sgn x) rest) as L. simpl length.
  destruct (Z.sgn_spec x) as [[_ S]|[[_ S]|[_ S]]]; rewrite S in *; lia.
Qed.

Lemma forall_positive_sgn (l : list Z) :
  Forall (fun x => 0 < x) l <-> Forall (fun x => Z.sgn x = 1) l.
Proof.
  split; intro H; eapply Forall_impl; [|exact H| |exact H]; intros x Hx;
    simpl in *; lia.
Qed.

Lemma forall_negative_sgn (l : list Z) :
  Forall (fun x => x < 0) l <-> Forall (fun x => Z.sgn x = -1) l.
Proof.
  split; intro H; eapply Forall_impl; [|exact H| |exact H]; intros x Hx;
    simpl in *; lia.
Qed.

(** The strong labels are decided by the two equalities alone, for
    every window size. *)
Lemma trend_of_counts_strong_iff (p n t : nat) :
  (1 <= t)%nat -> (p + n <= t)%nat ->
  (trend_of_counts p n t = strong_buy <-> p = t) /\
  (trend_of_counts p n t = strong_sell <-> n = t).
Proof.
  intros Ht H. unfold trend_of_counts.
  destruct (Nat.eqb_spec p t) as [Ep|Ep].
  - split; [tauto|]. split; [discriminate | lia].
  - destruct (Nat.eqb_spec n t) as [En|En].
    + assert (p = 0%nat) as -> by lia. rewrite ge_fraction_zero by assumption.
      split; [split; [discriminate | lia] | tauto].
    + destruct (ge_fraction p t); [split; split; try discriminate; lia|].
      destruct (ge_fraction n t); split; split; try discriminate; lia.
Qed.

(** X22. The two measures that [analyze_supply_trend] takes of one
    series agree on the strong labels: on three or more values
    [assess_trend] says strong_buy exactly when the buying streak of
    [calculate_continuous_days] covers the window ([min(5, len)] values),
    and strong_sell exactly when the selling streak does. *)
Theorem strong_label_is_a_streak :
  forall data : list Z,
    (3 <= length data)%nat ->
    let window := Z.of_nat (Nat.min 5 (length data)) in
    (Collector.assess_trend data = strong_buy
     <-> window <= Collector.calculate_continuous_days data) /\
    (Collector.assess_trend data = strong_sell
     <-> Collector.calculate_continuous_days data <= - window).
Proof.
  intros data H window. subst window.
  unfold Collector.assess_trend.
  destruct (Nat.ltb_spec (length data) 3) as [L|_]; [lia|].
  set (k := Nat.min 5 (length data)).
  assert (Hlen : length (firstn 5 data) = k) by apply length_firstn.
  assert (Hk : (1 <= k)%nat) by (unfold k; lia).
  pose proof (counts_le_length (firstn 5 data)) as C. rewrite Hlen in *.
  destruct (trend_of_counts_strong_iff _ _ k Hk C) as [-> ->].
  destruct (continuous_days_at_least data k Hk) as [-> ->].
  rewrite !leading_run_prefix.
  assert (F : firstn k data = firstn 5 data).
  { unfold k. destruct (Nat.min_spec 5 (length data)) as [[_ ->]|[G ->]];
      [reflexivity|]. rewrite !firstn_all2 by lia. reflexivity. }
  rewrite F.
  assert (P : count_positive (firstn 5 data) = k
              <-> Forall (fun x => Z.sgn x = 1) (firstn 5 data)).
  { rewrite <- forall_positive_sgn, <- Hlen. apply count_positive_all. }
  assert (N : count_negative (firstn 5 data) = k
              <-> Forall (fun x => Z.sgn x = -1) (firstn 5 data)).
  { rewrite <- forall_negative_sgn, <- Hlen. apply count_negative_all. }
  rewrite P, N.
  assert (K : (k <= length data)%nat) by (unfold k; lia).
  tauto.
Qed.

Lemma strong_label_is_a_streak_witness :
  (Collector.assess_trend [3; 2; 1; 4; 5; -1] = strong_buy
   <-> Z.of_nat (Nat.min 5 (length [3; 2; 1; 4; 5; -1]))
       <= Collector.calculate_continuous_days [3; 2; 1; 4; 5; -1]) /\
  (Collector.assess_trend [3; 2; 1; 4; 5; -1] = strong_sell
   <-> Collector.calculate_continuous_days [3; 2; 1; 4; 5; -1]
       <= - Z.of_nat (Nat.min 5 (length [3; 2; 1; 4; 5; -1]))).
Proof.
  apply (strong_label_is_a_streak [3; 2; 1; 4; 5; -1]). simpl. lia.
Defined.

(** ** The reports: [analyze_supply_trend] and [calculate_supply_trend] *)

Lemma trend_query_empty (table : list Analysis.supply_row) (code : string) (days : nat) :
  SupplyTrend.trend_query table code days = []
  <-> days = 0%nat \/ rows_on_file table code = [].
Proof.
  unfold SupplyTrend.trend_query. fold (rows_on_file table code).
  set (g := fun a b : Analysis.supply_row => _).
  pose proof (order_by_desc_permutation g (rows_on_file table code)) as P.
  destruct days as [|days]; simpl; [tauto|].
  destruct (Analysis.order_by_desc g (rows_on_file table code)) as [|x l] eqn:E.
  - apply Permutation_sym, Permutation_nil in P. tauto.
  - split; [discriminate|]. intros [H|H]; [discriminate|].
    rewrite H in P. apply Permutation_nil in P. discriminate P.
Qed.

Lemma trend_query_length (table : list Analysis.supply_row) (code : string) (days : nat) :
  length (SupplyTrend.trend_query table code days)
  = Nat.min days (length (rows_on_file table code)).
Proof.
  unfold SupplyTrend.trend_query. fold (rows_on_file table code).
  rewrite length_firstn.
  rewrite <- (Permutation_length (order_by_desc_permutation _ (rows_on_file table code))).
  reflexivity.
Qed.

Lemma analyze_supply_trend_cases (table : list Analysis.supply_row) (code : string)
    (days : nat) :
  (SupplyTrend.trend_query table code days = [] /\
   SupplyTrend.analyze_supply_trend table code days = Return None) \/
  (exists a,
      SupplyTrend.analyze_supply_trend table code days = Return (Some a) /\
      SupplyTrend.trend_query table code days <> [] /\
      let df := SupplyTrend.trend_query table code days in
      SupplyTrend.foreigner_buy_trend a
        = Collector.assess_trend (map Analysis.row_foreigner df) /\
      SupplyTrend.organ_buy_trend a
        = Collector.assess_trend (map Analysis.row_organ df) /\
      SupplyTrend.individual_buy_trend a
        = Collector.assess_trend (map Analysis.row_individual df) /\
      SupplyTrend.foreigner_continuous_days a
        = Collector.calculate_continuous_days (map Analysis.row_foreigner df) /\
      SupplyTrend.organ_continuous_days a
        = Collector.calculate_continuous_days (map Analysis.row_organ df) /\
      SupplyTrend.individual_continuous_days a
        = Collector.calculate_continuous_days (map Analysis.row_individual df) /\
      SupplyTrend.supply_score a
        = ScoreSpec.composite (SupplyTrend.foreigner_buy_trend a)
            (SupplyTrend.organ_buy_trend a) (SupplyTrend.individual_buy_trend a) /\
      SupplyTrend.a_recommendation a = get_recommendation (SupplyTrend.supply_score a)).
Proof.
  unfold SupplyTrend.analyze_supply_trend. cbv zeta.
  destruct (SupplyTrend.trend_query table code days) as [|r df] eqn:E;
    [left; split; reflexivity|].
  right.
  match goal with
  | |- context [Collector.calculate_supply_score ?f ?o ?i] =>
      destruct (supply_score_values f o i) as (_ & -> & _)
  end.
  cbn [bind]. eexists. split; [reflexivity|]. split; [discriminate|].
  cbn zeta. repeat split; reflexivity.
Qed.

(** X23. [analyze_supply_trend] never raises.  It returns [None]
    exactly when it is asked for no rows or the code has none on file;
    otherwise its score is the composite of the three labels and lies
    in [0, 100], the recommendation is the band of that score, and no
    streak is longer than the number of rows read, [min(days, rows on
    file)]. *)
Theorem analyze_supply_trend_report :
  forall (table : list Analysis.supply_row) (code : string) (days : nat),
  exists found,
    SupplyTrend.analyze_supply_trend table code days = Return found /\
    (found = None <-> days = 0%nat \/ rows_on_file table code = []) /\
    forall a, found = Some a ->
      let bound := Z.of_nat (Nat.min days (length (rows_on_file table code))) in
      0 <= SupplyTrend.supply_score a <= 100 /\
      SupplyTrend.supply_score a
        = ScoreSpec.composite (SupplyTrend.foreigner_buy_trend a)
            (SupplyTrend.organ_buy_trend a) (SupplyTrend.individual_buy_trend a) /\
      SupplyTrend.a_recommendation a = get_recommendation (SupplyTrend.supply_score a) /\
      Z.abs (SupplyTrend.foreigner_continuous_days a) <= bound /\
      Z.abs (SupplyTrend.organ_continuous_days a) <= bound /\
      Z.abs (SupplyTrend.individual_continuous_days a) <= bound.
Proof.
  intros table code days.
  destruct (analyze_supply_trend_cases table code days)
    as [[E ->]|(a & -> & N & T)].
  - exists None. split; [reflexivity|]. split.
    + split; [intros _; apply trend_query_empty; exact E | reflexivity].
    + intros a H. discriminate H.
  - exists (Some a). split; [reflexivity|]. split.
    + split; [discriminate|]. intro H. apply trend_query_empty in H. contradiction.
    + intros a' H. injection H as <-. cbn zeta in *.
      destruct T as (_ & _ & _ & Ef & Eo & Ei & Es & Er).
      rewrite Es, Ef, Eo, Ei.
      split; [apply supply_score_values|]. split; [reflexivity|].
      split; [rewrite Er, Es; reflexivity|].
      rewrite <- trend_query_length.
      pose proof continuous_days_abs_le as Bd.
      repeat split;
        match goal with
        | |- Z.abs (Collector.calculate_continuous_days (map ?f ?l)) <= _ =>
            rewrite <- (length_map f l); apply Bd
        end.
Qed.

Lemma calculate_supply_trend_cases (table : list Analysis.supply_row) (code : string)
    (window : nat) (a : Analysis.analysis) :
  Analysis.calculate_supply_trend table code window = Return (Some a) ->
  let recent_data := firstn window (Analysis.get_recent_data table code (window * 2)) in
  Analysis.foreigner_trend a
    = Analysis.assess_trend (map Analysis.row_foreigner recent_data) /\
  Analysis.organ_trend a = Analysis.assess_trend (map Analysis.row_organ recent_data) /\
  Analysis.individual_trend a
    = Analysis.assess_trend (map Analysis.row_individual recent_data) /\
  Analysis.supply_score a
    = ScoreSpec.composite (Analysis.foreigner_trend a) (Analysis.organ_trend a)
        (Analysis.individual_trend a) /\
  Analysis.a_recommendation a = get_recommendation (Analysis.supply_score a).
Proof.
  unfold Analysis.calculate_supply_trend.
  destruct (Analysis.get_recent_data table code (window * 2)) as [|r data];
    [discriminate|].
  match goal with
  | |- context [Analysis.calculate_supply_score ?f ?o ?i] =>
      destruct (supply_score_values f o i) as (-> & _)
  end.
  cbn [bind]. intro H. injection H as <-. cbn zeta. repeat split; reflexivity.
Qed.

Lemma get_recent_data_length (table : list Analysis.supply_row) (code : string)
    (days : nat) :
  code <> ""%string ->
  length (Analysis.get_recent_data table code days)
  = Nat.min days (length (rows_on_file table code)).
Proof.
  intro H. unfold Analysis.get_recent_data.
  destruct (String.eqb_spec code ""); [contradiction|]. cbn [negb].
  fold (rows_on_file table code). rewrite length_firstn.
  rewrite <- (Permutation_length (order_by_desc_permutation _ (rows_on_file table code))).
  reflexivity.
Qed.

(** X24. A short history always reads as hold.  When
    [analyze_supply_trend] has fewer than three rows to read (the code
    has fewer on file, or fewer are asked for), all three labels are
    neutral, the score is 50 and the recommendation is hold, whatever
    the quantities; [calculate_supply_trend] of [analysis.py] does the
    same below two rows. *)
Theorem short_history_scores_fifty :
  forall (table : list Analysis.supply_row) (code : string),
    (forall (days : nat) (a : SupplyTrend.analysis),
        SupplyTrend.analyze_supply_trend table code days = Return (Some a) ->
        (length (rows_on_file table code) < 3)%nat \/ (days < 3)%nat ->
        SupplyTrend.foreigner_buy_trend a = neutral /\
        SupplyTrend.organ_buy_trend a = neutral /\
        SupplyTrend.individual_buy_trend a = neutral /\
        SupplyTrend.supply_score a = 50 /\
        SupplyTrend.a_recommendation a = rec_hold) /\
    (forall (window : nat) (a : Analysis.analysis),
        code <> ""%string ->
        Analysis.calculate_supply_trend table code window = Return (Some a) ->
        (length (rows_on_file table code) < 2)%nat \/ (window < 2)%nat ->
        Analysis.foreigner_trend a = neutral /\
        Analysis.organ_trend a = neutral /\
        Analysis.individual_trend a = neutral /\
        Analysis.supply_score a = 50 /\
        Analysis.a_recommendation a = rec_hold).
Proof.
  intros table code. split.
  - intros days a H Hshort.
    destruct (analyze_supply_trend_cases table code days)
      as [[_ E]|(a' & E & _ & T)]; rewrite E in H; [discriminate|].
    injection H as <-. cbn zeta in T.
    destruct T as (Tf & To & Ti & _ & _ & _ & Es & Er).
    pose proof (trend_query_length table code days) as L.
    rewrite collector_assess_trend_short in Tf by (rewrite length_map; lia).
    rewrite collector_assess_trend_short in To by (rewrite length_map; lia).
    rewrite collector_assess_trend_short in Ti by (rewrite length_map; lia).
    rewrite Er, Es, Tf, To, Ti. repeat split; reflexivity.
  - intros window a Hcode H Hshort.
    destruct (calculate_supply_trend_cases table code window a H)
      as (Tf & To & Ti & Es & Er).
    pose proof (get_recent_data_length table code (window * 2) Hcode) as L.
    assert (S : (length (firstn window
                           (Analysis.get_recent_data table code (window * 2))) < 2)%nat)
      by (rewrite length_firstn; lia).
    rewrite analysis_assess_trend_short in Tf by (rewrite length_map; exact S).
    rewrite analysis_assess_trend_short in To by (rewrite length_map; exact S).
    rewrite analysis_assess_trend_short in Ti by (rewrite length_map; exact S).
    rewrite Er, Es, Tf, To, Ti. repeat split; reflexivity.
Qed.

Lemma short_history_scores_fifty_witness :
  (exists a,
      SupplyTrend.analyze_supply_trend
        [example_row "2024-01-30" 700; example_row "2024-01-31" 900] "005930" 20
      = Return (Some a) /\
      SupplyTrend.supply_score a = 50 /\
      SupplyTrend.a_recommendation a = rec_hold) /\
  (exists a,
      Analysis.calculate_supply_trend [example_row "2024-01-31" 900] "005930" 5
      = Return (Some a) /\
      Analysis.supply_score a = 50 /\
      Analysis.a_recommendation a = rec_hold).
Proof.
  split.
  - eexists. split; [vm_compute; reflexivity|].
    apply (proj1 (short_history_scores_fifty
                    [example_row "2024-01-30" 700; example_row "2024-01-31" 900]
                    "005930"%string) 20%nat).
    + vm_compute. reflexivity.
    + left. simpl. lia.
  - eexists. split; [vm_compute; reflexivity|].
    apply (proj2 (short_history_scores_fifty [example_row "2024-01-31" 900]
                    "005930"%string) 5%nat).
    + discriminate.
    + vm_compute. reflexivity.
    + left. simpl. lia.
Defined.

(** ** Collecting: [collect_all_stocks] *)

Lemma first_non_mapping (items : list pyvalue) :
  Exists (fun item => ~ is_mapping item) items ->
  exists before item after,
    items = before ++ item :: after /\ Forall is_mapping before /\ ~ is_mapping item.
Proof.
  induction items as [|x items IH]; intro H; [inversion H|].
  destruct x as [| | | | | | |d] eqn:Ex;
    try (exists [], x, items; subst x; repeat split;
         [constructor | intro F; exact F]).
  assert (H' : Exists (fun item => ~ is_mapping item) items).
  { inversion H as [? ? Hx|? ? Hx]; subst; [|exact Hx]. exfalso. apply Hx. exact I. }
  destruct (IH H') as (before & item & after & -> & Hb & Hi).
  exists (PyDict d :: before), item, after. repeat split; [|exact Hi].
  constructor; [exact I | exact Hb].
Qed.

Lemma parse_stock_data_non_mapping (B : builtins) (code name : string)
    (items : list pyvalue) :
  Exists (fun item => ~ is_mapping item) items ->
  DataCollector.parse_stock_data B code name (PyList items) = Raise AttributeError.
Proof.
  intro H. destruct (first_non_mapping items H) as (before & item & after & -> & Hb & Hi).
  unfold DataCollector.parse_stock_data.
  assert (T : truthy (PyList (before ++ item :: after)) = true)
    by (destruct before; reflexivity).
  rewrite T. simpl negb. cbv iota. cbn [iterate bind].
  rewrite data_collector_parse_loop_app by assumption.
  destruct item; simpl in Hi; try reflexivity. contradiction Hi. exact I.
Qed.

(** A payload that is a JSON object is iterated by its keys, which are
    text. *)
Lemma parse_stock_data_object (B : builtins) (code name : string)
    (kv : string * pyvalue) (d : list (string * pyvalue)) :
  DataCollector.parse_stock_data B code name (PyDict (kv :: d)) = Raise AttributeError.
Proof. reflexivity. Qed.

Lemma collect_loop_raises (B : builtins) (fetch : string -> pyvalue)
    (entry : Store.stock) (e : exn) (stock_list : list Store.stock) :
  In entry stock_list ->
  truthy (fetch (Store.code entry)) = true ->
  (forall name, DataCollector.parse_stock_data B (Store.code entry) name
                  (fetch (Store.code entry)) = Raise e) ->
  forall all_data, exists e', Store.collect_loop B fetch stock_list all_data = Raise e'.
Proof.
  intros Hin T P. induction stock_list as [|s rest IH]; [contradiction|].
  intro all_data. cbn [Store.collect_loop]. cbv zeta.
  destruct Hin as [->|Hin].
  - rewrite T, P. exists e. reflexivity.
  - destruct (truthy (fetch (Store.code s))); [|apply IH; exact Hin].
    destruct (DataCollector.parse_stock_data B (Store.code s) (Store.name s)
                (fetch (Store.code s))) as [parsed|e0]; cbn [bind].
    + apply IH. exact Hin.
    + exists e0. reflexivity.
Qed.

(** X25. [collect_all_stocks] writes the table once, after every
    payload is parsed, and [parse_stock_data] is called outside any
    handler: one payload that is a list holding an item that is not a
    mapping, or that is a non-empty JSON object (an error body, say),
    makes the whole run raise, and nothing of the other securities is
    stored. *)
Theorem one_bad_payload_aborts_collect_all_stocks :
  forall (B : builtins) (fetch : string -> pyvalue) (table : list Analysis.supply_row)
         (stock_list : list Store.stock) (entry : Store.stock),
    In entry stock_list ->
    (exists items, fetch (Store.code entry) = PyList items /\
                   Exists (fun item => ~ is_mapping item) items) \/
    (exists kv d, fetch (Store.code entry) = PyDict (kv :: d)) ->
    exists e, Store.collect_all_stocks B fetch table stock_list = Raise e.
Proof.
  intros B fetch table stock_list entry Hin H.
  assert (G : exists e', Store.collect_loop B fetch stock_list [] = Raise e').
  { apply (collect_loop_raises B fetch entry AttributeError); [exact Hin | |].
    - destruct H as [(items & -> & Hx)|(kv & d & ->)]; [|reflexivity].
      destruct items; [inversion Hx | reflexivity].
    - intro name. destruct H as [(items & -> & Hx)|(kv & d & ->)].
      + apply parse_stock_data_non_mapping. exact Hx.
      + apply parse_stock_data_object. }
  destruct G as [e' G]. exists e'. unfold Store.collect_all_stocks.
  rewrite G. reflexivity.
Qed.

Lemma one_bad_payload_aborts_collect_all_stocks_witness :
  exists e,
    Store.collect_all_stocks ascii_builtins
      (fun code =>
         if String.eqb code "000660"
         then PyDict [("message"%string, PyStr "busy")]
         else PyList [PyDict [("bizdate"%string, PyStr "20240131")]])
      []
      [{| Store.code := "005930"; Store.name := "S" |};
       {| Store.code := "000660"; Store.name := "H" |}]
    = Raise e.
Proof.
  apply (one_bad_payload_aborts_collect_all_stocks ascii_builtins _ []
           _ {| Store.code := "000660"; Store.name := "H" |}).
  - right. left. reflexivity.
  - right. exists ("message"%string, PyStr "busy"), []. reflexivity.
Defined.



(** ** Dates *)

Lemma digit_not_continuation (c : ascii) :
  Text.is_digit c = true -> Text.continuation c = false.
Proof.
  unfold Text.is_digit, Text.continuation, Text.in_range. intro H.
  apply andb_true_iff in H as [H1 H2].
  apply N.leb_le in H1, H2. apply andb_false_iff. left. apply N.leb_gt. lia.
Qed.

Lemma chars_of_digits (l : list ascii) :
  Forall (fun c => Text.is_digit c = true) l ->
  Text.chars l = map (fun c => [c]) l.
Proof.
  induction 1 as [|b r Hb Hr IH]; [reflexivity|].
  cbn [Text.chars]. rewrite IH. destruct Hr as [|c r' Hc Hr']; [reflexivity|].
  cbn [map]. rewrite (digit_not_continuation c Hc). reflexivity.
Qed.

Lemma reformatted_of_eight_digits (s : string) :
  eight_digits s ->
  exists a1 a2 a3 a4 a5 a6 a7 a8 : ascii,
    s = String a1 (String a2 (String a3 (String a4
          (String a5 (String a6 (String a7 (String a8 EmptyString))))))) /\
    reformatted s
    = String a1 (String a2 (String a3 (String a4 (String "-"
        (String a5 (String a6 (String "-"
          (String a7 (String a8 EmptyString))))))))).
Proof.
  intros [L D].
  destruct s as [|a1 [|a2 [|a3 [|a4 [|a5 [|a6 [|a7 [|a8 [|a9 s]]]]]]]]];
    try discriminate L.
  exists a1, a2, a3, a4, a5, a6, a7, a8. split; [reflexivity|].
  unfold reformatted, Text.slice. rewrite (chars_of_digits _ D). reflexivity.
Qed.

Lemma dash_compares_equal : Ascii.compare "-" "-" = Eq.
Proof. reflexivity. Qed.

Lemma reformatted_keeps_order (s1 s2 : string) :
  eight_digits s1 -> eight_digits s2 ->
  String.leb (reformatted s1) (reformatted s2) = String.leb s1 s2 /\
  (reformatted s1 = reformatted s2 <-> s1 = s2) /\
  String.length (reformatted s1) = 10%nat.
Proof.
  intros H1 H2.
  destruct (reformatted_of_eight_digits s1 H1)
    as (a1 & a2 & a3 & a4 & a5 & a6 & a7 & a8 & -> & ->).
  destruct (reformatted_of_eight_digits s2 H2)
    as (b1 & b2 & b3 & b4 & b5 & b6 & b7 & b8 & -> & ->).
  split; [|split; [|reflexivity]].
  - unfold String.leb. cbn [String.compare]. rewrite dash_compares_equal.
    reflexivity.
  - split; intro E; inversion E; reflexivity.
Qed.

Lemma parse_fields_date (B : builtins) to_int to_ratio finish code name
    (d : list (string * pyvalue)) (s : string) (r : flow_record) :
  dict_lookup d "bizdate" = Some (PyStr s) ->
  parse_fields B to_int to_ratio finish code name (PyDict d) = Return r ->
  date r = reformatted s.
Proof.
  intro Hd. unfold parse_fields. simpl getitem. rewrite Hd.
  cbn [or_raise bind]. rewrite format_date_of_text. cbn [bind].
  repeat match goal with
         | |- context [bind ?x _] =>
             let E := fresh "E" in destruct x eqn:E; cbn [bind]; try discriminate
         end.
  intro H; inversion H; subst; reflexivity.
Qed.

(** X27. Reformatting keeps the calendar order.  For two records whose
    [bizdate] is a text of eight digits, either parser emits dates of
    ten characters that compare as the raw texts do, and that are equal
    only when the raw texts are: the text order that [ORDER BY date]
    and the key [(stock_code, date)] rely on is the order of the days. *)
Theorem emitted_dates_keep_calendar_order :
  forall (B : builtins) (code name : string) (parse : pyvalue -> result flow_record)
         (d1 d2 : list (string * pyvalue)) (s1 s2 : string) (r1 r2 : flow_record),
    parse = DataCollector.parse_item B code name \/ parse = Collector.parse_item B code ->
    dict_lookup d1 "bizdate" = Some (PyStr s1) -> eight_digits s1 ->
    dict_lookup d2 "bizdate" = Some (PyStr s2) -> eight_digits s2 ->
    parse (PyDict d1) = Return r1 ->
    parse (PyDict d2) = Return r2 ->
    String.leb (date r1) (date r2) = String.leb s1 s2 /\
    (date r1 = date r2 <-> s1 = s2) /\
    String.length (date r1) = 10%nat.
Proof.
  intros B code name parse d1 d2 s1 s2 r1 r2 Hp L1 E1 L2 E2 P1 P2.
  assert (D : date r1 = reformatted s1 /\ date r2 = reformatted s2).
  { destruct Hp as [-> | ->];
      unfold DataCollector.parse_item, Collector.parse_item in P1, P2;
      split; eapply parse_fields_date; eassumption. }
  destruct D as [-> ->]. apply reformatted_keeps_order; assumption.
Qed.

Lemma emitted_dates_keep_calendar_order_witness :
  exists r1 r2 : flow_record,
    DataCollector.parse_item ascii_builtins "005930" "S"
      (PyDict [("bizdate"%string, PyStr "20231229")]) = Return r1 /\
    DataCollector.parse_item ascii_builtins "005930" "S"
      (PyDict [("bizdate"%string, PyStr "20240102")]) = Return r2 /\
    String.leb (date r1) (date r2) = String.leb "20231229" "20240102" /\
    (date r1 = date r2 <-> "20231229"%string = "20240102"%string) /\
    String.length (date r1) = 10%nat.
Proof.
  do 2 eexists. split; [vm_compute; reflexivity|]. split; [vm_compute; reflexivity|].
  apply (emitted_dates_keep_calendar_order ascii_builtins "005930" "S"
           (DataCollector.parse_item ascii_builtins "005930" "S")
           [("bizdate"%string, PyStr "20231229")]
           [("bizdate"%string, PyStr "20240102")]
           "20231229"%string "20240102"%string).
  - left. reflexivity.
  - reflexivity.
  - split; [reflexivity | repeat constructor].
  - reflexivity.
  - split; [reflexivity | repeat constructor].
  - vm_compute. reflexivity.
  - vm_compute. reflexivity.
Defined.

(** * The favorites ranker *)

(** ** The classifier of the specification against the program's *)






(** ** The latest rows of the specification against the query *)



Lemma rows_on_file_code (table : list Analysis.supply_row) (code : string)
    (r : Analysis.supply_row) :
  In r (rows_on_file table code) <-> In r table /\ Analysis.row_code r = code.
Proof.
  unfold rows_on_file. rewrite filter_In, String.eqb_eq. reflexivity.
Qed.



Lemma nth_error_split_at {A : Type} (l : list A) (k : nat) (x : A) :
  nth_error l k = Some x ->
  exists l1 l2, l = l1 ++ x :: l2 /\ length l1 = k.
Proof.
  revert k. induction l as [|y l IH]; intros [|k] H; simpl in H; try discriminate.
  - injection H as ->. exists [], l. split; reflexivity.
  - destruct (IH k H) as (l1 & l2 & -> & L). exists (y :: l1), l2.
    split; [reflexivity | simpl; congruence].
Qed.






(** ** The aggregate query *)














(** ** The loop and the recomputed score *)











(** The fourth case the amended statement leaves out is the defect of
    C4: on a code with exactly two rows [assess_trend] of [analysis.py]
    classifies the two values, so the pair is listed on a score of 100
    where the classifier of the specification gives neutral labels and
    50. *)
Lemma two_rows_are_scored_as_classified :
  exists results : list Analysis.favorite,
    Analysis.find_institutional_favorites (fun _ => Some "2024-01-01"%string)
      [stored_row "A" "Alpha" "2024-01-02" 1 1 (-1);
       stored_row "A" "Alpha" "2024-01-03" 1 1 (-1)]
      5 60
    = Return results /\
    map Analysis.f_supply_score results = [100] /\
    FavoritesSpec.score
      [stored_row "A" "Alpha" "2024-01-02" 1 1 (-1);
       stored_row "A" "Alpha" "2024-01-03" 1 1 (-1)]
      "A" = Some 50.
Proof. eexists. repeat split; vm_compute; reflexivity. Qed.
